(** * JWT middleware for go-json-rest: a shallow embedding of [auth_jwt.go]

    The file [auth_jwt.go] holds one configuration record ([JWTMiddleware]),
    the protected-route wrapper ([MiddlewareFunc] / [middlewareImpl]), the two
    token-issuing handlers ([LoginHandler], [RefreshHandler]) and the helpers
    [parseToken] and [unauthorized].

    Handlers are Go procedures that mutate the response writer and the
    request, read the wall clock, and may panic.  They are embedded as
    computations in a small state-and-failure monad over a [World].  The two
    imported packages ([jwt-go] and [go-json-rest]) are not part of the file:
    what the handlers call in them is an interface ([JwtGo], [GoJsonRest])
    over which every general statement is quantified. *)

From Stdlib Require Import ZArith Lia QArith Ascii.
From stdpp Require Import base option list strings countable gmap.

Local Open Scope Z_scope.
Local Open Scope string_scope.

(** ** Go values *)

(** The dynamic types an [interface{}] stored in a claim map can have here:
    what [encoding/json] produces for scalars ([nil], [bool], [string],
    [float64]) and the [int64] that the handlers store themselves. *)
Inductive value : Type :=
  | VNil
  | VBool (b : bool)
  | VString (s : string)
  | VInt64 (n : Z)
  | VFloat64 (f : Q).

#[global] Instance Q_eq_dec : EqDecision Q.
Proof. solve_decision. Defined.
#[global] Instance value_eq_dec : EqDecision value.
Proof. solve_decision. Defined.

Definition value_to_sum (v : value) : unit + bool + string + Z + Z * positive :=
  match v with
  | VNil => inl (inl (inl (inl tt)))
  | VBool b => inl (inl (inl (inr b)))
  | VString s => inl (inl (inr s))
  | VInt64 n => inl (inr n)
  | VFloat64 f => inr (Qnum f, Qden f)
  end.

Definition value_of_sum (x : unit + bool + string + Z + Z * positive) : value :=
  match x with
  | inl (inl (inl (inl _))) => VNil
  | inl (inl (inl (inr b))) => VBool b
  | inl (inl (inr s)) => VString s
  | inl (inr n) => VInt64 n
  | inr (n, d) => VFloat64 (n # d)
  end.

#[global] Instance value_countable : Countable value.
Proof.
  refine (inj_countable' value_to_sum value_of_sum _).
  intros [| | | |[]]; reflexivity.
Defined.

(** The number a claim holds, whichever numeric type it has. *)
Definition numeric (v : value) : option Q :=
  match v with
  | VInt64 n => Some (inject_Z n)
  | VFloat64 q => Some q
  | _ => None
  end.

(** [int64(x)] for a [float64] [x]: the fraction is dropped, towards zero. *)
Definition to_int64 (x : Q) : Z := Qnum x ÷ Zpos (Qden x).

(** A value as it comes back from a JSON round trip into an [interface{}]:
    every number is a [float64]. *)
Definition jsonify (v : value) : value :=
  match v with
  | VInt64 n => VFloat64 (inject_Z n)
  | _ => v
  end.

(** How a Go run can stop abnormally. *)
Inductive panic : Type :=
  | NilDereference          (* field access through a nil pointer, call of a nil func *)
  | InterfaceConversion     (* failed unchecked type assertion x.(T) *).

Inductive result (A : Type) : Type :=
  | Ok (a : A)
  | Panic (p : panic)
  | Fatal (msg : string)    (* log.Fatal: message, then os.Exit(1) *).
Arguments Ok {A} a.
Arguments Panic {A} p.
Arguments Fatal {A} msg.

(** [m[k]] on a [map[string]interface{}]: the nil interface when absent. *)
Definition map_index (m : gmap string value) (k : string) : value :=
  default VNil (m !! k).

(** [x.(string)] and [x.(int64)], the unchecked (one-result) forms. *)
Definition assert_string (x : value) : result string :=
  match x with
  | VString s => Ok s
  | _ => Panic InterfaceConversion
  end.

Definition assert_int64 (x : value) : result Z :=
  match x with
  | VInt64 n => Ok n
  | _ => Panic InterfaceConversion
  end.

(** ** Package [time] *)

(** An instant is its number of nanoseconds since the Unix epoch; a
    [time.Duration] is an [int64] count of nanoseconds.  The handlers do no
    arithmetic on either beyond [Add] and [Unix], and a [time.Time] spans
    far more than the seconds an [int64] can count, so instants are left
    unbounded. *)
Definition Time : Type := Z.
Definition Duration : Type := Z.

Definition Nanosecond : Duration := 1.
Definition Second : Duration := 1000000000 * Nanosecond.
Definition Hour : Duration := 3600 * Second.

Definition Add (t : Time) (d : Duration) : Time := t + d.
(** [t.Unix()]: whole seconds since the epoch, rounded towards minus infinity. *)
Definition Unix (t : Time) : Z := t / Second.

(** ** Package [strings] *)

(** Split [s] at the first occurrence of the byte [sep]. *)
Fixpoint cut (sep : ascii) (s : string) : option (string * string) :=
  match s with
  | EmptyString => None
  | String c s' =>
      if decide (c = sep) then Some (EmptyString, s')
      else match cut sep s' with
           | Some (before, after) => Some (String c before, after)
           | None => None
           end
  end.

(** [strings.SplitN(s, sep, n)] for a one-byte separator and [n >= 0]:
    at most [n] pieces, the last one being the unsplit remainder. *)
Fixpoint SplitN (s : string) (sep : ascii) (n : nat) : list string :=
  match n with
  | O => []
  | S O => [s]
  | S n' =>
      match cut sep s with
      | Some (before, after) => before :: SplitN after sep n'
      | None => [s]
      end
  end.

(** ** Package [net/http] and [go-json-rest/rest]: requests and responses *)

Definition StatusOK : Z := 200.
Definition StatusUnauthorized : Z := 401.

(** A JSON object with string fields, as passed to [WriteJson]. *)
Definition json_object : Type := list (string * string).

Record ResponseWriter : Type := mkWriter {
  wHeader : gmap string string;      (* writer.Header() *)
  wStatus : option Z;                (* status line, once written *)
  wBody : list json_object           (* objects written so far *)
}.

Record Request : Type := mkRequest {
  Header : gmap string string;       (* request.Header *)
  Payload : string;                  (* request body *)
  Env : gmap string value            (* request.Env *)
}.

(** [request.Header.Get(k)]: the empty string when the header is absent. *)
Definition Header_Get (r : Request) (k : string) : string :=
  default "" (Header r !! k).

Record login : Type := mkLogin {
  Username : string;
  Password : string
}.

(** ** The world a handler runs in *)

(** [clock i] is what the [i]-th call of [time.Now()] returns; [reads] counts
    the calls made so far.  [writer] and [request] are the two objects the
    handler receives by reference. *)
Record World : Type := mkWorld {
  clock : nat → Time;
  reads : nat;
  writer : ResponseWriter;
  request : Request
}.

Definition M (A : Type) : Type := World → result (A * World).

Definition ret {A} (a : A) : M A := fun w => Ok (a, w).

Definition bind {A B} (c : M A) (k : A → M B) : M B :=
  fun w =>
    match c w with
    | Ok (a, w') => k a w'
    | Panic p => Panic p
    | Fatal msg => Fatal msg
    end.

Definition lift {A} (r : result A) : M A :=
  fun w =>
    match r with
    | Ok a => Ok (a, w)
    | Panic p => Panic p
    | Fatal msg => Fatal msg
    end.

Declare Scope go_scope.
Delimit Scope go_scope with go.
Notation "x <- c ;; k" := (bind c (fun x => k))
  (at level 100, c at next level, right associativity) : go_scope.
Notation "c ;; k" := (bind c (fun _ => k))
  (at level 100, right associativity) : go_scope.
Local Open Scope go_scope.

(** [time.Now()] *)
Definition time_Now : M Time :=
  fun w => Ok (clock w (reads w),
               mkWorld (clock w) (S (reads w)) (writer w) (request w)).

Definition get_request : M Request := fun w => Ok (request w, w).

Definition modify_writer (f : ResponseWriter → ResponseWriter) : M unit :=
  fun w => Ok (tt, mkWorld (clock w) (reads w) (f (writer w)) (request w)).

Definition modify_request (f : Request → Request) : M unit :=
  fun w => Ok (tt, mkWorld (clock w) (reads w) (writer w) (f (request w))).

(** [writer.Header().Set(k, v)] *)
Definition Header_Set (k v : string) : M unit :=
  modify_writer (fun r => mkWriter (<[k := v]> (wHeader r)) (wStatus r) (wBody r)).

(** [writer.WriteHeader(code)]: go-json-rest fills in the content type when
    none was set; the status line is written once. *)
Definition WriteHeader (code : Z) : M unit :=
  modify_writer (fun r =>
    mkWriter
      (match wHeader r !! "Content-Type" with
       | Some _ => wHeader r
       | None => <["Content-Type" := "application/json"]> (wHeader r)
       end)
      (match wStatus r with Some c => Some c | None => Some code end)
      (wBody r)).

(** [writer.WriteJson(v)]: writes the status line (200) if that has not been
    done, then the object. *)
Definition WriteJson (v : json_object) : M unit :=
  WriteHeader StatusOK ;;
  modify_writer (fun r => mkWriter (wHeader r) (wStatus r) (wBody r ++ [v])).

(** [rest.Error(writer, msg, code)] *)
Definition rest_Error (msg : string) (code : Z) : M unit :=
  WriteHeader code ;;
  WriteJson [("Error", msg)].

(** [request.Env[k] = v] *)
Definition Env_Set (k : string) (v : value) : M unit :=
  modify_request (fun r => mkRequest (Header r) (Payload r) (<[k := v]> (Env r))).

(** ** Package [jwt-go] *)

(** A signing method is known to the handlers through its name only. *)
Record SigningMethod : Type := mkMethod { Alg : string }.

(** [[]byte]; [None] is the nil slice. *)
Definition Key : Type := option (list Byte.byte).

Record Token : Type := mkToken {
  Raw : string;
  Method : option SigningMethod;
  THeader : gmap string value;
  Claims : gmap string value;
  Signature : string;
  Valid : bool
}.

(** Go's [error] interface: [None] is [nil]. *)
Definition error : Type := option string.

(** [jwt.Keyfunc] *)
Definition Keyfunc : Type := Token → Key * error.

(** What the handlers import from jwt-go.  [jwt_Parse] receives the reading
    of the clock ([jwt.TimeFunc]) that its expiry check uses; a nil [*Token]
    result is [None]. *)
Class JwtGo : Type := {
  jwt_GetSigningMethod : string → option SigningMethod;
  jwt_Parse : Time → string → Keyfunc → option Token * error;
  jwt_SignedString : Token → Key → string * error
}.

(** What [LoginHandler] imports from go-json-rest: decoding the JSON payload
    of a request into a [login] struct ([None]: a non-nil error). *)
Class GoJsonRest : Type := {
  DecodeJsonPayload : Request → option login
}.

(** [jwt.New(method)]: the header is filled from [method.Alg()], which
    panics on a nil method. *)
Definition jwt_New (method : option SigningMethod) : result Token :=
  match method with
  | None => Panic NilDereference
  | Some m =>
      Ok (mkToken "" (Some m)
            (<["alg" := VString (Alg m)]> (<["typ" := VString "JWT"]> ∅))
            ∅ "" false)
  end.

(** An unsigned token of method [m] holding the claim map [claims]. *)
Definition unsigned (m : SigningMethod) (claims : gmap string value) : Token :=
  mkToken "" (Some m)
    (<["alg" := VString (Alg m)]> (<["typ" := VString "JWT"]> ∅))
    claims "" false.

(** [token.Claims[k] = v] *)
Definition set_claim (k : string) (v : value) (t : Token) : Token :=
  mkToken (Raw t) (Method t) (THeader t) (<[k := v]> (Claims t)) (Signature t) (Valid t).

(** Field access through a [*Token] that may be nil. *)
Definition deref (t : option Token) : result Token :=
  match t with
  | Some tok => Ok tok
  | None => Panic NilDereference
  end.

(** ** [auth_jwt.go] *)

Record JWTMiddleware : Type := mkJWT {
  Realm : string;
  SigningAlgorithm : string;
  JKey : Key;
  Timeout : Duration;
  MaxRefresh : Duration;
  Authenticator : option (string → string → bool);
  Authorizator : option (string → Request → bool)
}.

(** Calling a func-typed field that may be nil. *)
Definition func {F : Type} (f : option F) : result F :=
  match f with
  | Some g => Ok g
  | None => Panic NilDereference
  end.

Definition HandlerFunc : Type := M unit.

Section Handlers.
Context `{!JwtGo, !GoJsonRest}.

Definition unauthorized (mw : JWTMiddleware) : M unit :=
  Header_Set "WWW-Authenticate" ("Basic realm=" +:+ Realm mw) ;;
  rest_Error "Not Authorized" StatusUnauthorized.

(** The call of [jwt.Parse] is the one place where [parseToken] touches the
    world: the library reads the clock for its expiry check. *)
Definition parseToken (request : Request) (key : Key) : M (option Token * error) :=
  let authHeader := Header_Get request "Authorization" in
  if decide (authHeader = "") then
    ret (None, Some "Auth header empty")
  else
    let parts := SplitN authHeader " " 2 in
    if negb (bool_decide (length parts = 2%nat)
             && bool_decide (parts !! 0%nat = Some "Bearer")) then
      ret (None, Some "Invalid auth header")
    else
      now <- time_Now ;;
      ret (jwt_Parse now (default "" (parts !! 1%nat)) (fun _ => (key, None))).

Definition middlewareImpl (mw : JWTMiddleware) (handler : HandlerFunc) : M unit :=
  request <- get_request ;;
  r <- parseToken request (JKey mw) ;;
  let (token, err) := r in
  match err with
  | Some _ => unauthorized mw
  | None =>
      tok <- lift (deref token) ;;
      id <- lift (assert_string (map_index (Claims tok) "id")) ;;
      authorizator <- lift (func (Authorizator mw)) ;;
      if negb (authorizator id request) then unauthorized mw
      else
        Env_Set "REMOTE_USER" (VString id) ;;
        handler
  end.

(** [MiddlewareFunc] checks and completes the configuration (which it holds
    by pointer) and returns the wrapped handler; the completed configuration
    is returned with it. *)
Definition MiddlewareFunc (mw : JWTMiddleware) (handler : HandlerFunc)
  : result (JWTMiddleware * HandlerFunc) :=
  if decide (Realm mw = "") then Fatal "Realm is required"
  else
    let mw1 := if decide (SigningAlgorithm mw = "")
               then mkJWT (Realm mw) "HS256" (JKey mw) (Timeout mw) (MaxRefresh mw)
                          (Authenticator mw) (Authorizator mw)
               else mw in
    match JKey mw1 with
    | None => Fatal "Key required"
    | Some _ =>
        let mw2 := if decide (Timeout mw1 = 0)
                   then mkJWT (Realm mw1) (SigningAlgorithm mw1) (JKey mw1) Hour
                              (MaxRefresh mw1) (Authenticator mw1) (Authorizator mw1)
                   else mw1 in
        match Authenticator mw2 with
        | None => Fatal "Authenticator is required"
        | Some _ =>
            let mw3 := match Authorizator mw2 with
                       | Some _ => mw2
                       | None => mkJWT (Realm mw2) (SigningAlgorithm mw2) (JKey mw2)
                                       (Timeout mw2) (MaxRefresh mw2) (Authenticator mw2)
                                       (Some (fun _ _ => true))
                       end in
            Ok (mw3, middlewareImpl mw3 handler)
        end
    end.

Definition LoginHandler (mw : JWTMiddleware) : M unit :=
  request <- get_request ;;
  match DecodeJsonPayload request with
  | None => unauthorized mw
  | Some login_vals =>
      authenticator <- lift (func (Authenticator mw)) ;;
      if negb (authenticator (Username login_vals) (Password login_vals)) then
        unauthorized mw
      else
        token <- lift (jwt_New (jwt_GetSigningMethod (SigningAlgorithm mw))) ;;
        let token := set_claim "id" (VString (Username login_vals)) token in
        now <- time_Now ;;
        let token := set_claim "exp" (VInt64 (Unix (Add now (Timeout mw)))) token in
        token <- (if decide (MaxRefresh mw ≠ 0) then
                    now <- time_Now ;;
                    ret (set_claim "orig_iat" (VInt64 (Unix now)) token)
                  else ret token) ;;
        let (tokenString, err) := jwt_SignedString token (JKey mw) in
        match err with
        | Some _ => unauthorized mw
        | None => WriteJson [("token", tokenString)]
        end
  end.

Definition RefreshHandler (mw : JWTMiddleware) : M unit :=
  request <- get_request ;;
  r <- parseToken request (JKey mw) ;;
  let (token, err) := r in
  tok <- lift (deref token) ;;
  origIat <- lift (assert_int64 (map_index (Claims tok) "orig_iat")) ;;
  now <- time_Now ;;
  if decide (origIat < Unix now) then unauthorized mw
  else
    newToken <- lift (jwt_New (jwt_GetSigningMethod (SigningAlgorithm mw))) ;;
    let newToken := set_claim "id" (map_index (Claims tok) "id") newToken in
    now <- time_Now ;;
    let newToken := set_claim "exp" (VInt64 (Unix (Add now (Timeout mw)))) newToken in
    let newToken := set_claim "orig_iat" (VInt64 origIat) newToken in
    let (tokenString, err) := jwt_SignedString newToken (JKey mw) in
    match err with
    | Some _ => unauthorized mw
    | None => WriteJson [("token", tokenString)]
    end.

End Handlers.

(** ** A reference codec

    The handlers are parametric in the token codec.  To run them on concrete
    requests this module supplies one, following sections 4.1 and 6 of the
    specification for the wire format: three segments joined by a dot, the
    signature being recomputed and compared on parsing.  Base64url over JSON
    text is replaced by another injective serialisation (the binary numeral
    of the countable encoding of the claim map), HMAC by a keyed 64-bit
    checksum, and the header segment is the algorithm name itself.  What the
    handlers can observe of jwt-go beyond the wire format is taken from the
    library they import: numbers come back from parsing as [float64], and a
    token counts as expired when [now > int64(exp)]. *)
Module Codec.

(** The binary numeral of a positive number, least significant bit first
    and without its leading one. *)
Fixpoint bits (p : positive) : string :=
  match p with
  | xH => EmptyString
  | xO q => String "0" (bits q)
  | xI q => String "1" (bits q)
  end.

Fixpoint unbits (s : string) : option positive :=
  match s with
  | EmptyString => Some xH
  | String c r =>
      if decide (c = "0"%char) then xO <$> unbits r
      else if decide (c = "1"%char) then xI <$> unbits r
      else None
  end.

Definition encode_claims (m : gmap string value) : string := bits (encode m).

Definition decode_claims (s : string) : option (gmap string value) :=
  p ← unbits s; decode p.

(** Modelled from the spec: the supported symmetric HMAC family of section 3
    (the registry behind [jwt.GetSigningMethod]). *)
Definition GetSigningMethod (alg : string) : option SigningMethod :=
  if decide (alg = "HS256") then Some (mkMethod "HS256")
  else if decide (alg = "HS384") then Some (mkMethod "HS384")
  else if decide (alg = "HS512") then Some (mkMethod "HS512")
  else None.

(** The keyed checksum standing for the HMAC of the signing input. *)
Definition mix (h : Z) (b : Byte.byte) : Z :=
  (h * 1099511628211 + Z.of_N (Byte.to_N b)) mod 2 ^ 64.

Definition digest (m : SigningMethod) (key : Key) (input : string) : string :=
  let seed := fold_left mix (String.list_byte_of_string (Alg m)) 14695981039346656037 in
  let keyed := fold_left mix (default [] key) seed in
  bits (Z.to_pos (1 + fold_left mix (String.list_byte_of_string input) keyed)).

(** Modelled from the spec: [issue] of section 4.1 ([token.SignedString]):
    serialise header and claims, sign the serialisation with the key under
    the token's algorithm, join the three segments. *)
Definition SignedString (t : Token) (key : Key) : string * error :=
  match Method t with
  | None => ("", Some "signing method unavailable")
  | Some m =>
      match GetSigningMethod (Alg m) with
      | None => ("", Some "signing method unavailable")
      | Some _ =>
          let input := Alg m +:+ "." +:+ encode_claims (Claims t) in
          (input +:+ "." +:+ digest m key input, None)
      end
  end.

(** The expiry test of [jwt.Parse].  [auth_jwt.go] has none of its own and
    relies on the library's, which reads
    [if exp, ok := token.Claims["exp"].(float64); ok { if now > int64(exp) ...]
    with [now] in Unix seconds: a token is still good in the second its
    [exp] names, and expired from the next second on.  A token without a
    numeric [exp] claim is not subject to the test.  (The library's [nbf]
    test is left out: the handlers never set that claim.) *)
Definition expired (now : Time) (claims : gmap string value) : bool :=
  match numeric (map_index claims "exp") with
  | Some e => (to_int64 e <? Unix now)%Z
  | None => false
  end.

(** Modelled from the spec: [parse] of section 4.1 ([jwt.Parse]): split the
    wire format into its three segments ([Malformed] otherwise, with no
    token), look the header's algorithm up among the supported ones
    ([UnsupportedAlgorithm]), decode the claims, obtain the key from the key
    function, apply the library's expiry test, recompute the signature over
    the first two segments and compare it with the third
    ([InvalidSignature]).  After the split, the token decoded so far is
    returned along with the error.  Decoding yields every number as a
    [float64], as [encoding/json] does for an [interface{}] target, unless
    [keep_int64] is set. *)
Definition Parse (keep_int64 : bool) (now : Time) (s : string) (keyFunc : Keyfunc)
  : option Token * error :=
  match cut "." s with
  | None => (None, Some "Malformed")
  | Some (h, rest) =>
      match cut "." rest with
      | None => (None, Some "Malformed")
      | Some (c, sg) =>
          match cut "." sg with
          | Some _ => (None, Some "Malformed")
          | None =>
              match GetSigningMethod h with
              | None => (Some (mkToken s None ∅ ∅ sg false), Some "UnsupportedAlgorithm")
              | Some m =>
                  let header : gmap string value :=
                    <["alg" := VString h]> (<["typ" := VString "JWT"]> ∅) in
                  match decode_claims c with
                  | None => (Some (mkToken s (Some m) header ∅ sg false), Some "Malformed")
                  | Some decoded =>
                      let claims := if keep_int64 then decoded else jsonify <$> decoded in
                      let token := mkToken s (Some m) header claims sg false in
                      let (key, kerr) := keyFunc token in
                      match kerr with
                      | Some e => (Some token, Some e)
                      | None =>
                          if expired now claims then (Some token, Some "Expired")
                          else if decide (digest m key (h +:+ "." +:+ c) = sg) then
                            (Some (mkToken s (Some m) header claims sg true), None)
                          else (Some token, Some "InvalidSignature")
                      end
                  end
              end
          end
      end
  end.

(** The codec as jwt-go is: claims decoded by [encoding/json]. *)
Definition Json : JwtGo :=
  Build_JwtGo GetSigningMethod (Parse false) SignedString.

(** A codec that jwt-go is not: it hands integers back as the [int64] they
    were.  No request reaches the handlers through it; it only serves to
    show what the window check of [RefreshHandler] would do next if the type
    assertion before it could succeed. *)
Definition Typed : JwtGo :=
  Build_JwtGo GetSigningMethod (Parse true) SignedString.

(** A payload decoder for the login request: user name and password
    separated by the first colon. *)
Definition Plain : GoJsonRest :=
  Build_GoJsonRest (fun r =>
    match cut ":" (Payload r) with
    | Some (u, p) => Some (mkLogin u p)
    | None => None
    end).

End Codec.

(** ** Sample runs *)
Module Samples.

Definition secret : Key := Some (String.list_byte_of_string "secret").

Definition users (u p : string) : bool :=
  bool_decide (u = "alice") && bool_decide (p = "correct").

Definition config (alg : string) (maxRefresh : Duration) : JWTMiddleware :=
  mkJWT "api" alg secret Hour maxRefresh (Some users) (Some (fun _ _ => true)).

(** A clock that stands still at [t] seconds after the epoch. *)
Definition at_second (t : Z) : nat → Time := fun _ => t * Second.

Definition blank : ResponseWriter := mkWriter ∅ None [].

Definition world (clk : nat → Time) (hdr : gmap string string) (payload : string) : World :=
  mkWorld clk 0 blank (mkRequest hdr payload ∅).

Definition bearer (tok : string) : gmap string string :=
  <["Authorization" := "Bearer " +:+ tok]> ∅.

(** The wire form of a token of algorithm [alg] with the given claims,
    signed with [secret]. *)
Definition token_of (alg : string) (claims : gmap string value) : string :=
  fst (Codec.SignedString (unsigned (mkMethod alg) claims) secret).

(** A wrapped handler that leaves a mark in the response. *)
Definition mark : HandlerFunc := WriteJson [("handler", "ran")].

(** Alice's token, issued at second 100 for one hour, refreshable. *)
Definition alice_100 : string :=
  Eval vm_compute in
    token_of "HS256"
      (<["orig_iat" := VInt64 100]>
         (<["exp" := VInt64 3700]> (<["id" := VString "alice"]> ∅))).

(** The same claims without [orig_iat], under HS384. *)
Definition alice_384 : string :=
  Eval vm_compute in
    token_of "HS384" (<["exp" := VInt64 3700]> (<["id" := VString "alice"]> ∅)).

(** A correctly signed token that names no subject. *)
Definition nobody : string :=
  Eval vm_compute in token_of "HS256" (<["exp" := VInt64 3700]> ∅).

(** A clock read one nanosecond before second 101, then on the second. *)
Definition turning_second : nat → Time :=
  fun i => Z.of_nat i + (101 * Second - 1).

(** A configuration as a program writes it down, defaults left out. *)
Definition bare : JWTMiddleware :=
  mkJWT "api" "" secret 0 0 (Some users) None.

(** [bare] with its defaults filled in. *)
Definition completed : JWTMiddleware :=
  mkJWT "api" "HS256" secret Hour 0 (Some users) (Some (fun _ _ => true)).

(** A configuration whose authorizator lets only [root] through. *)
Definition guarded : JWTMiddleware :=
  mkJWT "api" "HS256" secret Hour 0 (Some users)
    (Some (fun id _ => bool_decide (id = "root"))).

(** Alice's token of second 100 for one hour, not refreshable. *)
Definition alice_plain : string :=
  Eval vm_compute in
    token_of "HS256" (<["exp" := VInt64 3700]> (<["id" := VString "alice"]> ∅)).

(** The reference codec with the name RS256 added to its registry.
    jwt-go's RSA methods want a PEM-encoded private key and answer anything
    else, the byte-string secrets of these runs included, with an error;
    that error is all that is modelled of them.  Under the HMAC names the
    codec signs as before. *)
Definition WithRS256 : JwtGo :=
  Build_JwtGo
    (fun alg => if decide (alg = "RS256") then Some (mkMethod "RS256")
                else Codec.GetSigningMethod alg)
    (Codec.Parse false)
    (fun t key =>
       match Method t with
       | Some m =>
           if decide (Alg m = "RS256")
           then ("", Some "Invalid Key: Key must be PEM encoded PKCS1 or PKCS8 private key")
           else Codec.SignedString t key
       | None => Codec.SignedString t key
       end).

End Samples.

(** * Vocabulary of the properties *)

(** The writer after [unauthorized] has run on writer [r]. *)
Definition Unauthorized (realm : string) (r : ResponseWriter) : ResponseWriter :=
  let h := <["WWW-Authenticate" := "Basic realm=" +:+ realm]> (wHeader r) in
  mkWriter
    (match h !! "Content-Type" with
     | Some _ => h
     | None => <["Content-Type" := "application/json"]> h
     end)
    (Some (default StatusUnauthorized (wStatus r)))
    (wBody r ++ [[("Error", "Not Authorized")]]).

(** The writer after [WriteJson v]. *)
Definition written (v : json_object) (r : ResponseWriter) : ResponseWriter :=
  mkWriter
    (match wHeader r !! "Content-Type" with
     | Some _ => wHeader r
     | None => <["Content-Type" := "application/json"]> (wHeader r)
     end)
    (Some (default StatusOK (wStatus r)))
    (wBody r ++ [v]).

(** A handler started in world [w] answered 401: only the writer has changed
    (and the clock may have been read). *)
Definition rejects (mw : JWTMiddleware) (w : World) (r : result (unit * World)) : Prop :=
  ∃ n, r = Ok (tt, mkWorld (clock w) n (Unauthorized (Realm mw) (writer w)) (request w)).

(** A handler started in world [w] answered with the one-field object
    [{"token": s}]. *)
Definition issues (s : string) (w : World) (r : result (unit * World)) : Prop :=
  ∃ n, r = Ok (tt, mkWorld (clock w) n (written [("token", s)] (writer w)) (request w)).

Definition panics {A} (r : result A) : Prop := ∃ p, r = Panic p.

Definition tick (w : World) : World :=
  mkWorld (clock w) (S (reads w)) (writer w) (request w).

(** The world in which the wrapped handler is started for subject [id]. *)
Definition admitted (id : string) (w : World) : World :=
  mkWorld (clock w) (reads w) (writer w)
    (mkRequest (Header (request w)) (Payload (request w))
       (<["REMOTE_USER" := VString id]> (Env (request w)))).

Definition with_algorithm (alg : string) (mw : JWTMiddleware) : JWTMiddleware :=
  mkJWT (Realm mw) alg (JKey mw) (Timeout mw) (MaxRefresh mw)
    (Authenticator mw) (Authorizator mw).

(** The key function that [parseToken] hands to [jwt.Parse]. *)
Definition the_key (key : Key) : Keyfunc := fun _ => (key, None).

(** The token that [parseToken] hands to the handler started in [w]. *)
Definition presented `{!JwtGo} (mw : JWTMiddleware) (w : World) : option Token :=
  match parseToken (request w) (JKey mw) w with
  | Ok ((token, _), _) => token
  | _ => None
  end.

(** [expiresAt], [originalIssuedAt] and [subject] of a token. *)
Definition expiresAt (t : Token) : option Q := numeric (map_index (Claims t) "exp").
Definition originalIssuedAt (t : Token) : option Q :=
  numeric (map_index (Claims t) "orig_iat").
Definition subject (t : Token) : value := map_index (Claims t) "id".

(** The claim set of sections 3 and 6: subject under [id], expiry under
    [exp] and, only when given, the original issue time under [orig_iat]. *)
Definition claim_set (subject : value) (expiresAt : Z) (originalIssuedAt : option Z)
  : gmap string value :=
  let base := <["exp" := VInt64 expiresAt]> (<["id" := subject]> ∅) in
  match originalIssuedAt with
  | Some t => <["orig_iat" := VInt64 t]> base
  | None => base
  end.

(** The claim set that [LoginHandler], started in [w], builds for user [u]:
    the expiry from its first reading of the clock, the original issue time
    (when [MaxRefresh] is not zero) from its second. *)
Definition login_claims (mw : JWTMiddleware) (w : World) (u : string)
  : gmap string value :=
  claim_set (VString u) (Unix (Add (clock w (reads w)) (Timeout mw)))
    (if bool_decide (MaxRefresh mw ≠ 0)
     then Some (Unix (clock w (S (reads w)))) else None).

(** *** What the handlers expect of the codec *)

(** The gate leaves the expiry check to the library.  jwt-go reports a
    token as expired when [now > int64(exp)], in Unix seconds: a token whose
    [exp] second has passed comes back with an error. *)
Definition enforces_expiry (lib : JwtGo) : Prop :=
  ∀ now s keyFunc tok err e,
    jwt_Parse now s keyFunc = (Some tok, err) →
    expiresAt tok = Some e →
    (to_int64 e < Unix now)%Z →
    err ≠ None.

(** Parsing returns the claims that were signed, as JSON values. *)
Definition decodes_faithfully (lib : JwtGo) : Prop :=
  ∀ t key s now keyFunc t' err,
    jwt_SignedString t key = (s, None) →
    jwt_Parse now s keyFunc = (Some t', err) →
    ∀ k, jsonify <$> (Claims t' !! k) = jsonify <$> (Claims t !! k).

(** A string signed with a key parses without error under that key for as
    long as its [exp] claim, if numeric, lies ahead. *)
Definition verifies_own_tokens (lib : JwtGo) : Prop :=
  ∀ t key s now,
    jwt_SignedString t key = (s, None) →
    (∀ e, numeric (map_index (Claims t) "exp") = Some e →
          (inject_Z (Unix now) < e)%Q) →
    ∃ t', jwt_Parse now s (the_key key) = (Some t', None).

(** [strings.Join(l, sep)] for a one-byte separator. *)
Fixpoint Join (l : list string) (sep : ascii) : string :=
  match l with
  | [] => ""
  | [s] => s
  | s :: l' => s +:+ String sep (Join l' sep)
  end.

(** Where a byte occurs in a string. *)
Fixpoint occurs (c : ascii) (s : string) : Prop :=
  match s with
  | EmptyString => False
  | String x s' => x = c ∨ occurs c s'
  end.

(** *** Chains of refreshes *)



(** One step of [+:+] on a string that starts with a known character. *)
Ltac step_append := unfold String.append; fold String.append.

(** * Properties *)

(** ** The response of [unauthorized] *)

Lemma unauthorized_run mw w :
  unauthorized mw w
  = Ok (tt, mkWorld (clock w) (reads w) (Unauthorized (Realm mw) (writer w)) (request w)).
Proof.
  unfold unauthorized, rest_Error, WriteJson, WriteHeader, Header_Set,
    modify_writer, bind, Unauthorized; cbn.
  destruct (<["WWW-Authenticate":=_]> (wHeader (writer w)) !! "Content-Type") eqn:E.
  - rewrite E. by destruct (wStatus (writer w)).
  - rewrite lookup_insert_eq. by destruct (wStatus (writer w)).
Qed.

Lemma unauthorized_rejects mw w : rejects mw w (unauthorized mw w).
Proof. exists (reads w). apply unauthorized_run. Qed.

Lemma rejects_tick mw w r : rejects mw (tick w) r → rejects mw w r.
Proof. intros [n ->]. by exists n. Qed.

Lemma Unauthorized_challenge realm r :
  wHeader (Unauthorized realm r) !! "WWW-Authenticate" = Some ("Basic realm=" +:+ realm).
Proof.
  unfold Unauthorized; cbn.
  destruct (<["WWW-Authenticate":=_]> (wHeader r) !! "Content-Type");
    cbn; [|rewrite lookup_insert_ne by done]; apply lookup_insert_eq.
Qed.

Lemma WriteJson_run v w :
  WriteJson v w = Ok (tt, mkWorld (clock w) (reads w) (written v (writer w)) (request w)).
Proof.
  unfold WriteJson, WriteHeader, modify_writer, bind, written; cbn.
  by destruct (wStatus (writer w)).
Qed.

Lemma WriteJson_issues s w n :
  issues s w (WriteJson [("token", s)] (mkWorld (clock w) n (writer w) (request w))).
Proof. rewrite WriteJson_run. by eexists. Qed.

Lemma rejects_not_issues mw s w r : rejects mw w r → ¬ issues s w r.
Proof.
  intros [n ->] [n' [= _ _ _ Hbody]].
  by apply app_inv_head in Hbody.
Qed.

(** ** Claim sets *)

Lemma claim_set_id subject e o : claim_set subject e o !! "id" = Some subject.
Proof. destruct o; by simplify_map_eq. Qed.

Lemma claim_set_exp subject e o : claim_set subject e o !! "exp" = Some (VInt64 e).
Proof. destruct o; by simplify_map_eq. Qed.

Lemma claim_set_orig_iat subject e o :
  claim_set subject e o !! "orig_iat" = VInt64 <$> o.
Proof. destruct o; by simplify_map_eq. Qed.

Lemma numeric_jsonify v : numeric (jsonify v) = numeric v.
Proof. by destruct v. Qed.

Lemma jsonify_idemp v : jsonify (jsonify v) = jsonify v.
Proof. by destruct v. Qed.

Lemma numeric_index_jsonify (c : gmap string value) k :
  numeric (map_index (jsonify <$> c) k) = numeric (map_index c k).
Proof.
  unfold map_index. rewrite lookup_fmap.
  destruct (c !! k) as [v|]; cbn; [apply numeric_jsonify|done].
Qed.

(** ** Whole seconds *)

Lemma to_int64_inject n : to_int64 (inject_Z n) = n.
Proof. unfold to_int64; cbn. apply Z.quot_1_r. Qed.

(** A number above the integer [a] is not brought below it by dropping
    its fraction. *)
Lemma to_int64_lower a q : (inject_Z a < q)%Q → (a ≤ to_int64 q)%Z.
Proof.
  destruct q as [n d]. unfold Qlt, to_int64; cbn. intros Hlt.
  pose proof (Z.quot_rem' n (Z.pos d)) as Hqr.
  assert (Z.rem n (Z.pos d) < Z.pos d)%Z as Hr.
  { pose proof (Z.rem_bound_abs n (Z.pos d) ltac:(lia)). lia. }
  revert Hlt Hqr Hr.
  generalize (Z.rem n (Z.pos d)), (n ÷ Z.pos d), (Pos2Z.is_pos d).
  generalize (Z.pos d). intros D r q HD Hlt -> Hr. nia.
Qed.

Lemma Unix_mono (a b : Time) : (a ≤ b)%Z → (Unix a ≤ Unix b)%Z.
Proof. intros Hab. unfold Unix. apply Z.div_le_mono; [done|exact Hab]. Qed.

Lemma Unix_next (a b : Time) : (b < a + Second)%Z → (Unix b ≤ Unix a + 1)%Z.
Proof.
  intros Hab. unfold Unix.
  replace (a `div` Second + 1)%Z with ((a + 1 * Second) `div` Second)%Z
    by (by rewrite Z.div_add).
  apply Z.div_le_mono; [done|lia].
Qed.

Lemma jsonify_string v s : jsonify v = VString s → v = VString s.
Proof. by destruct v. Qed.

(** ** The header form *)

Lemma cut_Some sep s a b :
  cut sep s = Some (a, b) → s = a +:+ String sep b.
Proof.
  revert a. induction s as [|c s IH]; intros a; cbn; [done|].
  case_decide as Hc.
  - intros [= <- <-]. by subst.
  - destruct (cut sep s) as [[a' b']|]; [|done].
    intros [= <- <-]. change (String c s = String c (a' +:+ String sep b')).
    f_equal. by apply IH.
Qed.

Lemma SplitN_two s sep a b :
  SplitN s sep 2 = [a; b] → s = a +:+ String sep b.
Proof.
  cbn. destruct (cut sep s) as [[a' b']|] eqn:E; [|done].
  intros [= <- <-]. by apply cut_Some.
Qed.

Lemma SplitN_Bearer t : SplitN ("Bearer " +:+ t) " " 2 = ["Bearer"; t].
Proof. reflexivity. Qed.

Lemma bearer_form h :
  (∃ t, h = "Bearer " +:+ t) ∨ (∀ t, h ≠ "Bearer " +:+ t).
Proof.
  destruct (cut " " h) as [[a b]|] eqn:E.
  - destruct (decide (a = "Bearer")) as [->|Ha].
    + left. exists b. by rewrite (cut_Some _ _ _ _ E).
    + right. intros t ->. injection E as <- _. by destruct Ha.
  - right. by intros t ->.
Qed.

Section Parsing.
Context `{!JwtGo}.

Lemma parseToken_bearer req key t :
  Header_Get req "Authorization" = "Bearer " +:+ t →
  parseToken req key
  = (now <- time_Now ;; ret (jwt_Parse now t (the_key key))).
Proof.
  intros E. unfold parseToken. rewrite E, SplitN_Bearer.
  by rewrite decide_False by done.
Qed.

Lemma parseToken_other req key w :
  (∀ t, Header_Get req "Authorization" ≠ "Bearer " +:+ t) →
  ∃ e, parseToken req key w = Ok ((None, Some e), w).
Proof.
  intros Hform. unfold parseToken.
  case_decide as Hempty; [by eexists|].
  destruct (SplitN _ " " 2) as [|a [|b [|? ?]]] eqn:E; cbn; try by eexists.
  destruct (decide (a = "Bearer")) as [->|Ha].
  - apply SplitN_two in E. by destruct (Hform b).
  - rewrite (bool_decide_eq_false_2 (Some a = Some "Bearer")) by congruence.
    by eexists.
Qed.

(** [parseToken] ends normally, and changes nothing but the clock count. *)
Lemma parseToken_frame req key w :
  ∃ r, parseToken req key w = Ok (r, w) ∨ parseToken req key w = Ok (r, tick w).
Proof.
  unfold parseToken. case_decide; [eexists; by left|].
  destruct (negb _); [eexists; by left|].
  eexists; right. reflexivity.
Qed.

End Parsing.

(** ** Runs of the three handlers *)

Section Runs.
Context `{!JwtGo, !GoJsonRest}.

Lemma parseToken_reads mw w :
  ∃ token err n,
    parseToken (request w) (JKey mw) w
    = Ok ((token, err), mkWorld (clock w) n (writer w) (request w)).
Proof.
  destruct (parseToken_frame (request w) (JKey mw) w) as [[token err] [E|E]];
    exists token, err; [exists (reads w)|exists (S (reads w))];
    rewrite E; by destruct w.
Qed.

Lemma middlewareImpl_error mw handler w token e w1 :
  parseToken (request w) (JKey mw) w = Ok ((token, Some e), w1) →
  middlewareImpl mw handler w = unauthorized mw w1.
Proof. intros E. unfold middlewareImpl, bind, get_request. by rewrite E. Qed.

Lemma middlewareImpl_parsed mw handler w tok w1 :
  parseToken (request w) (JKey mw) w = Ok ((Some tok, None), w1) →
  middlewareImpl mw handler w
  = (id <- lift (assert_string (map_index (Claims tok) "id")) ;;
     authorizator <- lift (func (Authorizator mw)) ;;
     if negb (authorizator id (request w)) then unauthorized mw
     else Env_Set "REMOTE_USER" (VString id) ;; handler) w1.
Proof. intros E. unfold middlewareImpl, bind at 1 2, get_request. by rewrite E. Qed.

Lemma gate_rejects_error mw handler w token e w1 :
  parseToken (request w) (JKey mw) w = Ok ((token, Some e), w1) →
  rejects mw w (middlewareImpl mw handler w).
Proof.
  intros E. rewrite (middlewareImpl_error _ _ _ _ _ _ E).
  destruct (parseToken_frame (request w) (JKey mw) w) as [r [E'|E']];
    rewrite E' in E; injection E as _ <-.
  - apply unauthorized_rejects.
  - apply rejects_tick, unauthorized_rejects.
Qed.

(** The possible ends of a run of the gate. *)
Lemma middlewareImpl_cases mw handler w :
  panics (middlewareImpl mw handler w)
  ∨ rejects mw w (middlewareImpl mw handler w)
  ∨ ∃ id n, middlewareImpl mw handler w
            = handler (admitted id (mkWorld (clock w) n (writer w) (request w))).
Proof.
  destruct (parseToken_reads mw w) as (token & err & n & En).
  destruct err as [e|].
  { right; left. by eapply gate_rejects_error. }
  destruct token as [tok|].
  2:{ left. exists NilDereference.
      unfold middlewareImpl, bind, get_request. by rewrite En. }
  rewrite (middlewareImpl_parsed _ _ _ _ _ En).
  unfold bind, lift, assert_string.
  destruct (map_index (Claims tok) "id") as [| |id| |]; try (left; by eexists).
  destruct (Authorizator mw) as [f|]; cbn [func]; [|left; by eexists].
  destruct (f id (request w)); cbn [negb].
  - right; right. by exists id, n.
  - right; left. exists n. by rewrite unauthorized_run.
Qed.

(** What [LoginHandler] does once the payload is decoded. *)
Lemma LoginHandler_run mw w u p :
  DecodeJsonPayload (request w) = Some (mkLogin u p) →
  LoginHandler mw w =
    match Authenticator mw with
    | None => Panic NilDereference
    | Some authenticate =>
        if authenticate u p then
          match jwt_GetSigningMethod (SigningAlgorithm mw) with
          | None => Panic NilDereference
          | Some m =>
              let issue := clock w (reads w) in
              let again := clock w (S (reads w)) in
              let refreshable := bool_decide (MaxRefresh mw ≠ 0) in
              let token :=
                unsigned m (claim_set (VString u) (Unix (Add issue (Timeout mw)))
                              (if refreshable then Some (Unix again) else None)) in
              let w' := mkWorld (clock w)
                          (if refreshable then S (S (reads w)) else S (reads w))
                          (writer w) (request w) in
              match jwt_SignedString token (JKey mw) with
              | (s, None) => WriteJson [("token", s)] w'
              | (_, Some _) => unauthorized mw w'
              end
          end
        else unauthorized mw w
    end.
Proof.
  intros E. unfold LoginHandler, bind at 1, get_request. rewrite E.
  unfold bind at 1, lift at 1. destruct (Authenticator mw) as [f|]; cbn [func]; [|done].
  cbn [Username Password]. destruct (f u p); cbn [negb]; [|done].
  unfold bind at 1, lift at 1.
  destruct (jwt_GetSigningMethod _) as [m|]; cbn [jwt_New]; [|done].
  unfold bind at 1, time_Now. cbn [Username Password].
  case_bool_decide as Hr.
  - rewrite decide_True by done. unfold bind, time_Now, ret.
    unfold set_claim, unsigned, claim_set.
    cbn [Raw Method THeader Claims Signature Valid clock reads writer request].
    by destruct (jwt_SignedString _ _) as [s [e|]].
  - rewrite decide_False by tauto. unfold bind, ret.
    unfold set_claim, unsigned, claim_set.
    cbn [Raw Method THeader Claims Signature Valid clock reads writer request].
    by destruct (jwt_SignedString _ _) as [s [e|]].
Qed.

Lemma LoginHandler_undecoded mw w :
  DecodeJsonPayload (request w) = None →
  LoginHandler mw w = unauthorized mw w.
Proof. intros E. unfold LoginHandler, bind at 1, get_request. by rewrite E. Qed.

(** What [RefreshHandler] does once [parseToken] has handed it a token
    whose [orig_iat] is an [int64]. *)
Lemma RefreshHandler_run mw w tok err w1 o :
  parseToken (request w) (JKey mw) w = Ok ((Some tok, err), w1) →
  map_index (Claims tok) "orig_iat" = VInt64 o →
  RefreshHandler mw w =
    if decide (o < Unix (clock w1 (reads w1))) then unauthorized mw (tick w1)
    else
      match jwt_GetSigningMethod (SigningAlgorithm mw) with
      | None => Panic NilDereference
      | Some m =>
          let newToken :=
            unsigned m (claim_set (map_index (Claims tok) "id")
                          (Unix (Add (clock w1 (S (reads w1))) (Timeout mw)))
                          (Some o)) in
          match jwt_SignedString newToken (JKey mw) with
          | (s, None) => WriteJson [("token", s)] (tick (tick w1))
          | (_, Some _) => unauthorized mw (tick (tick w1))
          end
      end.
Proof.
  intros E Ho. unfold RefreshHandler, bind at 1 2, get_request. rewrite E.
  cbn [deref]. unfold bind at 1, lift at 1. cbn [deref].
  unfold bind at 1, lift at 1. rewrite Ho. cbn [assert_int64].
  unfold bind at 1, time_Now. fold (tick w1).
  case_decide; [done|].
  unfold bind at 1, lift at 1.
  destruct (jwt_GetSigningMethod _) as [m|]; cbn [jwt_New]; [|done].
  unfold bind, time_Now, tick.
  unfold set_claim, unsigned, claim_set.
  cbn [Raw Method THeader Claims Signature Valid clock reads writer request].
  by destruct (jwt_SignedString _ _) as [s [e|]].
Qed.

(** Without an [int64] under [orig_iat] the handler stops at the type
    assertion; without a token at all, at the dereference. *)
Lemma RefreshHandler_mistyped mw w tok err w1 :
  parseToken (request w) (JKey mw) w = Ok ((Some tok, err), w1) →
  (∀ n, map_index (Claims tok) "orig_iat" ≠ VInt64 n) →
  RefreshHandler mw w = Panic InterfaceConversion.
Proof.
  intros E Ho. unfold RefreshHandler, bind at 1 2, get_request. rewrite E.
  unfold bind at 1, lift at 1. cbn [deref].
  unfold bind at 1, lift at 1.
  destruct (map_index (Claims tok) "orig_iat"); try done. by destruct (Ho n).
Qed.

Lemma RefreshHandler_nil mw w err w1 :
  parseToken (request w) (JKey mw) w = Ok ((None, err), w1) →
  RefreshHandler mw w = Panic NilDereference.
Proof.
  intros E. unfold RefreshHandler, bind at 1 2, get_request. by rewrite E.
Qed.

(** The possible ends of a run of the two issuing handlers. *)
Lemma LoginHandler_cases mw w :
  panics (LoginHandler mw w)
  ∨ rejects mw w (LoginHandler mw w)
  ∨ ∃ s, issues s w (LoginHandler mw w).
Proof.
  destruct (DecodeJsonPayload (request w)) as [[u p]|] eqn:E.
  2:{ right; left. rewrite LoginHandler_undecoded by done. apply unauthorized_rejects. }
  rewrite (LoginHandler_run _ _ _ _ E).
  destruct (Authenticator mw) as [f|]; [|left; by eexists].
  destruct (f u p); [|right; left; apply unauthorized_rejects].
  destruct (jwt_GetSigningMethod _) as [m|]; [|left; by eexists].
  cbv zeta. destruct (jwt_SignedString _ _) as [s [e|]].
  - right; left. eexists. by rewrite unauthorized_run.
  - right; right. exists s. apply WriteJson_issues.
Qed.

Lemma RefreshHandler_cases mw w :
  panics (RefreshHandler mw w)
  ∨ rejects mw w (RefreshHandler mw w)
  ∨ ∃ s, issues s w (RefreshHandler mw w).
Proof.
  destruct (parseToken_reads mw w) as (token & err & n & En).
  destruct token as [tok|].
  2:{ left. exists NilDereference. by eapply RefreshHandler_nil. }
  destruct (map_index (Claims tok) "orig_iat") as [| | |o|] eqn:Ho.
  1-3,5: left; exists InterfaceConversion;
         eapply RefreshHandler_mistyped; [done|]; by rewrite Ho.
  rewrite (RefreshHandler_run _ _ _ _ _ _ En Ho).
  unfold tick; cbn [clock reads writer request].
  case_decide.
  { right; left. eexists. by rewrite unauthorized_run. }
  destruct (jwt_GetSigningMethod _) as [m|]; [|left; by eexists].
  cbv zeta. destruct (jwt_SignedString _ _) as [s [e|]].
  - right; left. eexists. by rewrite unauthorized_run.
  - right; right. exists s. apply WriteJson_issues.
Qed.


End Runs.

(** ** The reference codec: round trip and expiry *)

Lemma app_String_assoc a c b d :
  (a +:+ String c b) +:+ d = a +:+ String c (b +:+ d).
Proof. induction a as [|x a IH]; [done|]. step_append. by f_equal. Qed.

Lemma cut_app sep a b :
  cut sep a = None → cut sep (a +:+ String sep b) = Some (a, b).
Proof.
  induction a as [|x a IH]; cbn.
  - intros _. step_append. cbn. by rewrite decide_True.
  - case_decide; [done|].
    destruct (cut sep a) as [[? ?]|]; [done|]. intros _.
    step_append. cbn. rewrite decide_False by done. by rewrite IH.
Qed.

Module CodecFacts.
Import Codec.

Lemma unbits_bits p : unbits (bits p) = Some p.
Proof. induction p as [p IH|p IH|]; cbn; by rewrite ?IH. Qed.

Lemma cut_bits p : cut "." (bits p) = None.
Proof. induction p as [p IH|p IH|]; cbn; by rewrite ?IH. Qed.

Lemma decode_encode_claims m : decode_claims (encode_claims m) = Some m.
Proof.
  unfold decode_claims, encode_claims. rewrite unbits_bits. cbn.
  apply decode_encode.
Qed.

Lemma GetSigningMethod_Some alg m :
  GetSigningMethod alg = Some m → cut "." alg = None ∧ m = mkMethod alg.
Proof.
  unfold GetSigningMethod. repeat case_decide; subst; intros [= <-]; by split.
Qed.

(** Parsing a signed string gives the signed claims back: as they were
    with [keep_int64], as JSON values without. *)
Lemma Parse_SignedString keep_int64 t key s now keyFunc t' err :
  SignedString t key = (s, None) →
  Parse keep_int64 now s keyFunc = (Some t', err) →
  Claims t' = if keep_int64 then Claims t else jsonify <$> Claims t.
Proof.
  unfold SignedString.
  destruct (Method t) as [m|]; [|done].
  destruct (GetSigningMethod (Alg m)) as [m'|] eqn:Em; [|done].
  destruct (GetSigningMethod_Some _ _ Em) as [Hcut ->].
  intros [= <-]. unfold Parse.
  repeat match goal with
         | |- context ["." +:+ ?x] => change ("." +:+ x) with (String "." x)
         end.
  rewrite app_String_assoc, (cut_app _ _ _ Hcut).
  unfold encode_claims at 1. rewrite (cut_app _ _ _ (cut_bits _)).
  unfold digest at 1. rewrite cut_bits, Em.
  fold (encode_claims (Claims t)). rewrite decode_encode_claims.
  destruct (keyFunc _) as [k [e|]]; [by intros [= <- _]|].
  destruct (expired _ _); [by intros [= <- _]|].
  case_decide; by intros [= <- _].
Qed.

(** And a signed string is accepted under the key it was signed with, as
    long as it has not expired. *)
Lemma Parse_accepts (keep_int64 : bool) (t : Token) key s now :
  SignedString t key = (s, None) →
  expired now (if keep_int64 then Claims t else jsonify <$> Claims t) = false →
  ∃ t' : Token,
    Parse keep_int64 now s (the_key key) = (Some t', None)
        ∧ Claims t' = if keep_int64 then Claims t else jsonify <$> Claims t.
Proof.
  unfold SignedString.
  destruct (Method t) as [m|]; [|done].
  destruct (GetSigningMethod (Alg m)) as [m'|] eqn:Em; [|done].
  destruct (GetSigningMethod_Some _ _ Em) as [Hcut ->].
  intros [= <-] Hfresh. unfold Parse.
  repeat match goal with
         | |- context ["." +:+ ?x] => change ("." +:+ x) with (String "." x)
         end.
  rewrite app_String_assoc, (cut_app _ _ _ Hcut).
  unfold encode_claims at 1. rewrite (cut_app _ _ _ (cut_bits _)).
  unfold digest at 1. rewrite cut_bits, Em.
  fold (encode_claims (Claims t)). rewrite decode_encode_claims.
  unfold the_key. rewrite Hfresh.
  case_decide; [|done]. by eexists.
Qed.

Lemma Json_decodes_faithfully : decodes_faithfully Json.
Proof.
  intros t key s now kf t' err Hs Hp k.
  rewrite (Parse_SignedString false _ _ _ _ _ _ _ Hs Hp), lookup_fmap.
  destruct (Claims t !! k) as [v|]; cbn; [|done]. by rewrite jsonify_idemp.
Qed.


(** The expiry test, seen from outside: no token whose [exp] second has
    passed is returned without error. *)
Lemma Parse_enforces_expiry keep_int64 now s keyFunc tok err e :
  Parse keep_int64 now s keyFunc = (Some tok, err) →
  expiresAt tok = Some e →
  (to_int64 e < Unix now)%Z →
  err ≠ None.
Proof.
  unfold Parse.
  destruct (cut "." s) as [[h rest]|]; [|done].
  destruct (cut "." rest) as [[c sg]|]; [|done].
  destruct (cut "." sg); [done|].
  destruct (GetSigningMethod h) as [m|]; [|by intros [= _ <-]].
  destruct (decode_claims c) as [decoded|]; [|by intros [= _ <-]].
  destruct (keyFunc _) as [k [e'|]]; [by intros [= _ <-]|].
  destruct (expired _ _) eqn:Ex; [by intros [= _ <-]|].
  case_decide; [|by intros [= _ <-]].
  intros [= <- _] He Hlt. exfalso.
  unfold expired in Ex. unfold expiresAt in He. cbn [Claims] in He.
  rewrite He in Ex. apply Z.ltb_ge in Ex. lia.
Qed.

Lemma Json_enforces_expiry : enforces_expiry Json.
Proof. intros ? ? ? ? ? ?. apply (Parse_enforces_expiry false). Qed.


(** The JSON codec never hands out an [int64]. *)
Lemma Json_no_int64 now s keyFunc tok err k n :
  Parse false now s keyFunc = (Some tok, err) →
  map_index (Claims tok) k ≠ VInt64 n.
Proof.
  assert (∀ d : gmap string value, map_index (jsonify <$> d) k ≠ VInt64 n) as Hj.
  { intros d. unfold map_index. rewrite lookup_fmap.
    by destruct (d !! k) as [[]|]. }
  unfold Parse.
  destruct (cut "." s) as [[h rest]|]; [|done].
  destruct (cut "." rest) as [[c sg]|]; [|done].
  destruct (cut "." sg); [done|].
  destruct (GetSigningMethod h) as [m|]; [|by intros [= <- _]].
  destruct (decode_claims c) as [decoded|]; [|by intros [= <- _]].
  destruct (keyFunc _) as [key [e'|]]; [intros [= <- _]; apply Hj|].
  destruct (expired _ _); [intros [= <- _]; apply Hj|].
  case_decide; intros [= <- _]; apply Hj.
Qed.


End CodecFacts.

(** * The claims *)

Section Claims.
Context `{!JwtGo, !GoJsonRest}.

(** The gate admits a request whose token parses without error and names a
    string subject that the authorizator accepts: the wrapped handler runs
    with the subject under [REMOTE_USER]. *)
Lemma gate_admits mw handler w tok w1 id authorize :
  parseToken (request w) (JKey mw) w = Ok ((Some tok, None), w1) →
  map_index (Claims tok) "id" = VString id →
  Authorizator mw = Some authorize →
  authorize id (request w) = true →
  middlewareImpl mw handler w
  = handler (admitted id (mkWorld (clock w1) (reads w1) (writer w1) (request w1))).
Proof.
  intros E Hid Ha Hok. rewrite (middlewareImpl_parsed _ _ _ _ _ E).
  unfold bind at 1, lift at 1. rewrite Hid. cbn [assert_string].
  unfold bind at 1, lift at 1. rewrite Ha. cbn [func]. rewrite Hok. cbn [negb].
  reflexivity.
Qed.

(** [RefreshHandler] never reads [MaxRefresh]. *)
Lemma refresh_ignores_MaxRefresh mw window w :
  RefreshHandler
    (mkJWT (Realm mw) (SigningAlgorithm mw) (JKey mw) (Timeout mw) window
       (Authenticator mw) (Authorizator mw)) w
  = RefreshHandler mw w.
Proof. reflexivity. Qed.

(** C2.  A refresh request whose Authorization header is absent or is not
    of the form [Bearer <token>] makes [parseToken] return a nil token with
    its error; [RefreshHandler] drops the error and dereferences the token:
    the run ends in a nil-pointer panic, not in the Unauthorized response. *)
Theorem refresh_without_bearer_panics mw w :
  (∀ t, Header_Get (request w) "Authorization" ≠ "Bearer " +:+ t) →
  RefreshHandler mw w = Panic NilDereference.
Proof.
  intros Hform.
  destruct (parseToken_other (request w) (JKey mw) w Hform) as [e He].
  by eapply RefreshHandler_nil.
Qed.

(** C3, as amended.  Token verification does not consult the configured
    signing algorithm: whatever algorithm the configuration names, the same
    token comes out of the same request, and the gate treats the request
    the same. *)
Theorem gate_ignores_configured_algorithm mw alg handler w :
  presented (with_algorithm alg mw) w = presented mw w
  ∧ middlewareImpl (with_algorithm alg mw) handler w = middlewareImpl mw handler w.
Proof. split; reflexivity. Qed.

(** C4.  Whenever the token handed to [RefreshHandler] has no [int64]
    under [orig_iat] (the claim is missing, or is the [float64] of a
    JSON-decoded token), the run ends in a panic at the type assertion;
    no Unauthorized response is written. *)
Theorem refresh_panics_unless_int64 mw w tok err w1 :
  parseToken (request w) (JKey mw) w = Ok ((Some tok, err), w1) →
  (∀ n, map_index (Claims tok) "orig_iat" ≠ VInt64 n) →
  RefreshHandler mw w = Panic InterfaceConversion.
Proof.
  intros E Ho. unfold RefreshHandler, bind at 1 2, get_request. rewrite E.
  unfold bind at 1, lift at 1. cbn [deref].
  unfold bind at 1, lift at 1, assert_int64.
  destruct (map_index (Claims tok) "orig_iat") as [| | |n|] eqn:Ev; try reflexivity.
  by destruct (Ho n).
Qed.


(** C6.  When the authenticator accepts the decoded credentials (and the
    library knows the configured algorithm and signs with the key), the
    login flow answers with the single-field object [{"token": s}], and [s]
    decodes (with a codec that decodes faithfully) to claims with subject =
    identity and expiresAt = issue time + tokenLifetime in Unix seconds, the
    issue time being the reading of the clock taken for it.
    originalIssuedAt is absent when [MaxRefresh] is zero and present when it
    is not; it is the Unix second of the next reading of the clock, which is
    the issue second up to the resolution of the clock: when less than a
    second passes between the two readings, the issue second or the one
    after. *)
Theorem login_issues_claims mw w authenticate u p m :
  decodes_faithfully _ →
  DecodeJsonPayload (request w) = Some (mkLogin u p) →
  Authenticator mw = Some authenticate →
  authenticate u p = true →
  jwt_GetSigningMethod (SigningAlgorithm mw) = Some m →
  snd (jwt_SignedString (unsigned m (login_claims mw w u)) (JKey mw)) = None →
  ∃ s,
    issues s w (LoginHandler mw w)
    ∧ ∀ now keyFunc t err,
        jwt_Parse now s keyFunc = (Some t, err) →
        Claims t !! "id" = Some (VString u)
        ∧ expiresAt t = Some (inject_Z (Unix (Add (clock w (reads w)) (Timeout mw))))
        ∧ (MaxRefresh mw = 0 → Claims t !! "orig_iat" = None)
        ∧ (MaxRefresh mw ≠ 0 →
           ∃ o, originalIssuedAt t = Some (inject_Z o)
             ∧ o = Unix (clock w (S (reads w)))
             ∧ ((clock w (reads w) ≤ clock w (S (reads w))
                 ∧ clock w (S (reads w)) < clock w (reads w) + Second)%Z →
                (Unix (clock w (reads w)) ≤ o ≤ Unix (clock w (reads w)) + 1)%Z)).
Proof.
  intros Hlib Hd Ha Hok Hm Hsig.
  destruct (jwt_SignedString (unsigned m (login_claims mw w u)) (JKey mw))
    as [s e] eqn:Hs.
  cbn in Hsig. subst e. exists s. split.
  - rewrite (LoginHandler_run _ _ _ _ Hd), Ha, Hok, Hm. cbv zeta.
    fold (login_claims mw w u). rewrite Hs. apply WriteJson_issues.
  - intros now kf t err Hp.
    pose proof (Hlib _ _ _ _ _ _ _ Hs Hp) as Hk.
    unfold login_claims in Hk. cbn [unsigned Claims] in Hk.
    split; [|split; [|split]].
    + specialize (Hk "id"). rewrite claim_set_id in Hk.
      destruct (Claims t !! "id") as [v|]; [|done].
      injection Hk as Hk. by rewrite (jsonify_string _ _ Hk).
    + specialize (Hk "exp"). rewrite claim_set_exp in Hk.
      unfold expiresAt, map_index.
      destruct (Claims t !! "exp") as [v|]; [|done].
      injection Hk as Hk. cbn. by rewrite <- (numeric_jsonify v), Hk.
    + intros Hz. specialize (Hk "orig_iat"). rewrite claim_set_orig_iat in Hk.
      rewrite bool_decide_eq_false_2 in Hk by (intros Hn; by apply Hn).
      by destruct (Claims t !! "orig_iat").
    + intros Hnz. specialize (Hk "orig_iat"). rewrite claim_set_orig_iat in Hk.
      rewrite bool_decide_eq_true_2 in Hk by done.
      exists (Unix (clock w (S (reads w)))). split; [|split; [done|]].
      * unfold originalIssuedAt, map_index.
        destruct (Claims t !! "orig_iat") as [v|]; [|done].
        injection Hk as Hk. cbn. by rewrite <- (numeric_jsonify v), Hk.
      * intros [Hle Hlt]. split; [by apply Unix_mono|by apply Unix_next].
Qed.

(** C8.  Unless the Authorization header is exactly [Bearer], one space,
    and the token (an absent header reads as the empty string), token
    extraction fails without consulting the codec, and the gate answers
    with the Unauthorized response without running the wrapped handler. *)
Theorem gate_requires_bearer_form mw handler w :
  (∀ t, Header_Get (request w) "Authorization" ≠ "Bearer " +:+ t) →
  (∃ e, parseToken (request w) (JKey mw) w = Ok ((None, Some e), w))
  ∧ rejects mw w (middlewareImpl mw handler w).
Proof.
  intros Hform.
  destruct (parseToken_other (request w) (JKey mw) w Hform) as [e He].
  split; [by exists e|]. by eapply gate_rejects_error.
Qed.

(** Every run of the gate, of the login flow or of the refresh flow that
    ends normally without admitting the request or issuing a token leaves
    one and the same response, determined by the realm alone: on a writer
    not yet written to, status 401, and in every case the header
    [WWW-Authenticate: Basic realm=<realm>] and the body
    [{"Error": "Not Authorized"}].  The runs that panic leave none. *)
Lemma answered_failures_alike mw handler w :
  (panics (middlewareImpl mw handler w)
   ∨ rejects mw w (middlewareImpl mw handler w)
   ∨ ∃ id n, middlewareImpl mw handler w
             = handler (admitted id (mkWorld (clock w) n (writer w) (request w))))
  ∧ (panics (LoginHandler mw w)
     ∨ rejects mw w (LoginHandler mw w)
     ∨ ∃ s, issues s w (LoginHandler mw w))
  ∧ (panics (RefreshHandler mw w)
     ∨ rejects mw w (RefreshHandler mw w)
     ∨ ∃ s, issues s w (RefreshHandler mw w))
  ∧ wHeader (Unauthorized (Realm mw) (writer w)) !! "WWW-Authenticate"
    = Some ("Basic realm=" +:+ Realm mw)
  ∧ wStatus (Unauthorized (Realm mw) (writer w))
    = Some (default StatusUnauthorized (wStatus (writer w)))
  ∧ wBody (Unauthorized (Realm mw) (writer w))
    = (wBody (writer w) ++ [[("Error", "Not Authorized")]])%list.
Proof.
  split; [apply middlewareImpl_cases|].
  split; [apply LoginHandler_cases|].
  split; [apply RefreshHandler_cases|].
  split; [apply Unauthorized_challenge|]. by split.
Qed.

(** C10.  When the token passed verification but holds no string under
    [id] (the claim is missing or has another type), the gate ends in a
    panic at the type assertion; no Unauthorized response is written. *)
Theorem gate_panics_without_string_id mw handler w tok w1 :
  parseToken (request w) (JKey mw) w = Ok ((Some tok, None), w1) →
  (∀ s, map_index (Claims tok) "id" ≠ VString s) →
  middlewareImpl mw handler w = Panic InterfaceConversion.
Proof.
  intros E Hid. rewrite (middlewareImpl_parsed _ _ _ _ _ E).
  unfold bind at 1, lift at 1.
  destruct (map_index (Claims tok) "id") as [| |s| |] eqn:Ev; try done.
  by destruct (Hid s).
Qed.

End Claims.

(** * The claims on sample runs *)

Module Runs.
Import Samples.

(** C1.  Alice logs in at second 100 with a refresh window of one hour and
    asks for a refresh fifty seconds later, well inside the window.  With
    the JSON codec the run panics at the type assertion on [orig_iat]; with
    a codec that keeps the [int64], the window check (which compares
    [orig_iat] with the present second, [MaxRefresh] playing no part)
    refuses the request. *)
Theorem refresh_inside_window_refused :
  issues alice_100 (world (at_second 100) ∅ "alice:correct")
    (@LoginHandler Codec.Json Codec.Plain (config "HS256" Hour)
       (world (at_second 100) ∅ "alice:correct"))
  ∧ (Unix (at_second 150 0%nat) < 100 + Unix (MaxRefresh (config "HS256" Hour)))%Z
  ∧ @RefreshHandler Codec.Json (config "HS256" Hour)
      (world (at_second 150) (bearer alice_100) "")
    = Panic InterfaceConversion
  ∧ rejects (config "HS256" Hour) (world (at_second 150) (bearer alice_100) "")
      (@RefreshHandler Codec.Typed (config "HS256" Hour)
         (world (at_second 150) (bearer alice_100) "")).
Proof.
  split; [exists 2%nat; vm_compute; reflexivity|].
  split; [vm_compute; reflexivity|].
  split; [vm_compute; reflexivity|].
  exists 2%nat. vm_compute. reflexivity.
Qed.

Lemma refresh_without_bearer_panics_witness :
  @RefreshHandler Codec.Json (config "HS256" Hour) (world (at_second 100) ∅ "")
  = Panic NilDereference.
Proof.
  apply (@refresh_without_bearer_panics Codec.Json).
  intros t. vm_compute. discriminate.
Defined.

(** C3, as stated, fails: a token that names HS384 in its header and is
    signed with the configured key passes the gate of a configuration
    pinned to HS256, and the wrapped handler runs. *)
Lemma algorithm_not_pinned :
  SigningAlgorithm (config "HS256" 0) = "HS256"
  ∧ (∃ tok, @presented Codec.Json (config "HS256" 0)
              (world (at_second 200) (bearer alice_384) "") = Some tok
            ∧ THeader tok !! "alg" = Some (VString "HS384"))
  ∧ @middlewareImpl Codec.Json (config "HS256" 0) mark
      (world (at_second 200) (bearer alice_384) "")
    = mark (admitted "alice" (tick (world (at_second 200) (bearer alice_384) ""))).
Proof.
  split; [reflexivity|]. split.
  - eexists. split; vm_compute; reflexivity.
  - vm_compute. reflexivity.
Qed.

(** C9.  One request without Authorization header, two paths: the gate
    answers it with the Unauthorized response, the refresh flow panics and
    leaves no response. *)
Theorem refresh_failure_unanswered :
  rejects (config "HS256" Hour) (world (at_second 100) ∅ "")
    (@middlewareImpl Codec.Json (config "HS256" Hour) mark
       (world (at_second 100) ∅ ""))
  ∧ @RefreshHandler Codec.Json (config "HS256" Hour) (world (at_second 100) ∅ "")
    = Panic NilDereference
  ∧ ¬ rejects (config "HS256" Hour) (world (at_second 100) ∅ "")
        (@RefreshHandler Codec.Json (config "HS256" Hour)
           (world (at_second 100) ∅ "")).
Proof.
  split; [exists 0%nat; vm_compute; reflexivity|].
  split; [vm_compute; reflexivity|].
  intros [n Hn]. vm_compute in Hn. discriminate.
Qed.



Lemma refresh_panics_unless_int64_witness :
  @RefreshHandler Codec.Json (config "HS256" Hour)
    (world (at_second 100) (bearer alice_100) "")
  = Panic InterfaceConversion.
Proof.
  eapply (@refresh_panics_unless_int64 Codec.Json).
  - vm_compute. reflexivity.
  - intros n. vm_compute. discriminate.
Defined.


(** The clock turns to second 101 between the two readings of the login:
    the token expires at 100 + 3600 and names 101 as its original issue
    time. *)
Lemma login_issues_claims_witness :
  ∃ s,
    issues s (world turning_second ∅ "alice:correct")
      (@LoginHandler Codec.Json Codec.Plain (config "HS256" Hour)
         (world turning_second ∅ "alice:correct"))
    ∧ ∀ now keyFunc t err,
        Codec.Parse false now s keyFunc = (Some t, err) →
        Claims t !! "id" = Some (VString "alice")
        ∧ expiresAt t = Some (inject_Z 3700)
        ∧ originalIssuedAt t = Some (inject_Z 101)
        ∧ Unix (turning_second 0%nat) = 100%Z.
Proof.
  destruct (@login_issues_claims Codec.Json Codec.Plain (config "HS256" Hour)
              (world turning_second ∅ "alice:correct") users "alice" "correct"
              (mkMethod "HS256")) as (s & Hs & Hdec).
  - apply CodecFacts.Json_decodes_faithfully.
  - vm_compute. reflexivity.
  - reflexivity.
  - vm_compute. reflexivity.
  - vm_compute. reflexivity.
  - vm_compute. reflexivity.
  - exists s. split; [exact Hs|]. intros now kf t err Hp.
    destruct (Hdec now kf t err Hp) as (Hid & Hexp & _ & Ho).
    destruct Ho as (o & Ho & -> & _); [vm_compute; discriminate|].
    split; [exact Hid|]. split; [rewrite Hexp; vm_compute; reflexivity|].
    split; [rewrite Ho; vm_compute; reflexivity|vm_compute; reflexivity].
Defined.

Lemma gate_requires_bearer_form_witness :
  (∃ e, @parseToken Codec.Json
          (request (world (at_second 200) (<["Authorization" := "bearer abc"]> ∅) ""))
          secret (world (at_second 200) (<["Authorization" := "bearer abc"]> ∅) "")
        = Ok ((None, Some e), world (at_second 200) (<["Authorization" := "bearer abc"]> ∅) ""))
  ∧ rejects (config "HS256" 0)
      (world (at_second 200) (<["Authorization" := "bearer abc"]> ∅) "")
      (@middlewareImpl Codec.Json (config "HS256" 0) mark
         (world (at_second 200) (<["Authorization" := "bearer abc"]> ∅) "")).
Proof.
  apply (@gate_requires_bearer_form Codec.Json (config "HS256" 0)).
  intros t. vm_compute. discriminate.
Defined.

Lemma gate_panics_without_string_id_witness :
  @middlewareImpl Codec.Json (config "HS256" 0) mark
    (world (at_second 200) (bearer nobody) "")
  = Panic InterfaceConversion.
Proof.
  eapply (@gate_panics_without_string_id Codec.Json).
  - vm_compute. reflexivity.
  - intros s. vm_compute. discriminate.
Defined.

End Runs.

(** * Further properties of the code *)

(** ** [strings.SplitN] as [parseToken] calls it *)

Lemma cut_None_occurs sep s : cut sep s = None ↔ ¬ occurs sep s.
Proof.
  induction s as [|c s IH]; cbn; [tauto|].
  case_decide as Hc.
  - split; [done|]. intros Hn. destruct Hn. by left.
  - destruct (cut sep s) as [[a b]|].
    + split; [done|]. intros Hn. exfalso.
      destruct IH as [_ IH]. 
      assert (¬ occurs sep s) as Hs by tauto. by specialize (IH Hs).
    + split; [|done]. intros _. destruct IH as [IH _]. specialize (IH eq_refl). tauto.
Qed.

Lemma cut_before sep s a b : cut sep s = Some (a, b) → cut sep a = None.
Proof.
  revert a. induction s as [|c s IH]; intros a; cbn; [done|].
  case_decide as Hc.
  - by intros [= <- _].
  - destruct (cut sep s) as [[a' b']|] eqn:E; [|done].
    intros [= <- <-]. cbn. rewrite decide_False by done.
    by rewrite (IH a' eq_refl).
Qed.

(** Splitting loses nothing and never yields more than the pieces asked
    for: joining the pieces of [SplitN s sep (S n)] with the separator gives
    [s] back, there are at most [S n] of them, and when there are two or
    more the first one holds no separator. *)
Theorem SplitN_Join s sep n :
  Join (SplitN s sep (S n)) sep = s
  ∧ (0 < length (SplitN s sep (S n)) ≤ S n)%nat
  ∧ ∀ a l, SplitN s sep (S n) = a :: l → l ≠ [] → ¬ occurs sep a.
Proof.
  revert s. induction n as [|n IH]; intros s.
  { cbn. repeat split; [lia..|]. by intros a l [= _ <-]. }
  change (SplitN s sep (S (S n)))
    with (match cut sep s with
          | Some (before, after) => before :: SplitN after sep (S n)
          | None => [s]
          end).
  destruct (cut sep s) as [[a b]|] eqn:E.
  - destruct (IH b) as (Hj & Hl & _). repeat split.
    + destruct (SplitN b sep (S n)) as [|x l] eqn:Eb; [cbn in Hl; lia|].
      change (Join (a :: x :: l) sep) with (a +:+ String sep (Join (x :: l) sep)).
      rewrite Hj. symmetry. by apply cut_Some.
    + cbn [length]. lia.
    + cbn [length]. lia.
    + intros a' l [= <- _] _. apply cut_None_occurs. by eapply cut_before.
  - repeat split; [cbn; lia..|]. by intros a l [= _ <-].
Qed.

(** ** [MiddlewareFunc] *)

Section Setup.
Context `{!JwtGo, !GoJsonRest}.

(** [MiddlewareFunc] stops the process exactly when the realm is empty, the
    key is nil or the authenticator is nil (an empty, non-nil key passes);
    it never panics. *)
Theorem MiddlewareFunc_fatal_iff mw handler :
  ((∃ msg, MiddlewareFunc mw handler = Fatal msg)
   ↔ Realm mw = "" ∨ JKey mw = None ∨ Authenticator mw = None)
  ∧ (Realm mw = "" → MiddlewareFunc mw handler = Fatal "Realm is required")
  ∧ ¬ panics (MiddlewareFunc mw handler).
Proof.
  unfold MiddlewareFunc.
  destruct mw as [realm alg key lifetime window authn authz]; cbn.
  unfold panics.
  destruct (decide (realm = "")) as [->|Hr].
  { split; [split; [by left|by eexists]|]. split; [done|]. by intros [p ?]. }
  destruct (decide (alg = "")) as [Ha|Ha]; cbn;
    (destruct key as [k|]; cbn;
     [destruct (decide (lifetime = 0)) as [Hl|Hl]; cbn;
      (destruct authn as [f|]; cbn; [destruct authz as [g|]; cbn|])|]);
    ((split; [split|split]);
     [ intros [msg Hm]; first [discriminate Hm | by right; left | by right; right]
     | intros [?|[?|?]]; first [done | by eexists]
     | done
     | by intros [p ?] ]).
Qed.

(** When [MiddlewareFunc] returns, the configuration it has completed keeps
    realm, key, refresh window and authenticator, has the algorithm HS256
    if none was named, a lifetime of one hour if it was zero, and an
    authorizator that accepts everybody if none was given; the handler it
    returns is [middlewareImpl] on that configuration.  The refresh window
    gets no default: zero stays zero. *)
Theorem MiddlewareFunc_completes mw handler mw' h :
  MiddlewareFunc mw handler = Ok (mw', h) →
  Realm mw' = Realm mw ∧ Realm mw' ≠ ""
  ∧ JKey mw' = JKey mw ∧ is_Some (JKey mw')
  ∧ MaxRefresh mw' = MaxRefresh mw
  ∧ Authenticator mw' = Authenticator mw ∧ is_Some (Authenticator mw')
  ∧ SigningAlgorithm mw'
    = (if decide (SigningAlgorithm mw = "") then "HS256" else SigningAlgorithm mw)
  ∧ Timeout mw' = (if decide (Timeout mw = 0) then Hour else Timeout mw)
  ∧ match Authorizator mw with
    | Some f => Authorizator mw' = Some f
    | None => ∃ f, Authorizator mw' = Some f ∧ ∀ id r, f id r = true
    end
  ∧ h = middlewareImpl mw' handler.
Proof.
  unfold MiddlewareFunc.
  destruct mw as [realm alg key lifetime window authn authz]; cbn.
  destruct (decide (realm = "")) as [->|Hr]; [done|].
  destruct (decide (alg = "")) as [Ha|Ha]; cbn;
    (destruct key as [k|]; cbn;
     [destruct (decide (lifetime = 0)) as [Hl|Hl]; cbn;
      (destruct authn as [f|]; cbn; [destruct authz as [g|]; cbn|])|]);
    try done; intros [= <- <-]; cbn; subst;
    repeat split; try done; try by eexists.
Qed.

(** Completing a completed configuration changes nothing. *)
Theorem MiddlewareFunc_idempotent mw handler mw' h handler' :
  MiddlewareFunc mw handler = Ok (mw', h) →
  MiddlewareFunc mw' handler' = Ok (mw', middlewareImpl mw' handler').
Proof.
  unfold MiddlewareFunc.
  destruct mw as [realm alg key lifetime window authn authz]; cbn.
  destruct (decide (realm = "")) as [->|Hr]; [done|].
  destruct (decide (alg = "")) as [Ha|Ha]; cbn;
    (destruct key as [k|]; cbn;
     [destruct (decide (lifetime = 0)) as [Hl|Hl]; cbn;
      (destruct authn as [f|]; cbn; [destruct authz as [g|]; cbn|])|]);
    try done; intros [= <- _]; cbn;
    rewrite !(decide_False (P := realm = "")) by done;
    rewrite ?(decide_False (P := alg = "")) by done;
    rewrite ?(decide_False (P := lifetime = 0)) by done;
    reflexivity.
Qed.

Lemma MiddlewareFunc_completes_aux mw handler mw' h :
  MiddlewareFunc mw handler = Ok (mw', h) →
  JKey mw' = JKey mw
  ∧ h = middlewareImpl mw' handler
  ∧ match Authorizator mw with
    | Some f => Authorizator mw' = Some f
    | None => ∃ f, Authorizator mw' = Some f ∧ ∀ id r, f id r = true
    end.
Proof.
  unfold MiddlewareFunc.
  destruct mw as [realm alg key lifetime window authn authz]; cbn.
  destruct (decide (realm = "")) as [->|Hr]; [done|].
  destruct (decide (alg = "")) as [Ha|Ha]; cbn;
    (destruct key as [k|]; cbn;
     [destruct (decide (lifetime = 0)) as [Hl|Hl]; cbn;
      (destruct authn as [f|]; cbn; [destruct authz as [g|]; cbn|])|]);
    try done; intros [= <- <-]; cbn; repeat split; try done; by eexists.
Qed.

(** A gate set up without authorizator admits every subject: whenever the
    token parses without error and names a string subject, the wrapped
    handler runs with that subject under [REMOTE_USER]. *)
Theorem default_authorizator_admits mw handler mw' h w tok w1 id :
  Authorizator mw = None →
  MiddlewareFunc mw handler = Ok (mw', h) →
  parseToken (request w) (JKey mw) w = Ok ((Some tok, None), w1) →
  map_index (Claims tok) "id" = VString id →
  h w = handler (admitted id w1).
Proof.
  intros Hz Hm Hp Hid.
  destruct (MiddlewareFunc_completes_aux mw handler mw' h Hm) as (Hk & Hh & Hf).
  rewrite Hz in Hf. destruct Hf as (f & Hf & Hall). subst h.
  rewrite <- Hk in Hp.
  by rewrite (gate_admits mw' handler w tok w1 id f Hp Hid Hf (Hall _ _)).
Qed.

End Setup.

(** ** [parseToken], the gate and the two issuing handlers *)

Section Further.
Context `{!JwtGo, !GoJsonRest}.

(** On a header [Bearer], space, rest, [parseToken] hands the whole rest
    (further spaces included) to [jwt.Parse] together with a key function
    that answers the configured key for every token, and returns the
    library's token and error as they are; the clock is read once. *)
Theorem parseToken_hands_remainder req key t w :
  Header_Get req "Authorization" = "Bearer " +:+ t →
  parseToken req key w
  = Ok (jwt_Parse (clock w (reads w)) t (the_key key), tick w).
Proof. intros Hh. by rewrite (parseToken_bearer _ _ _ Hh). Qed.

(** When the token parses without error and names a string subject that
    the authorizator accepts, the gate writes nothing: the wrapped handler
    starts on the untouched writer, with the request as it came except for
    [REMOTE_USER], which now holds the subject.  The authorizator is asked
    about the request as it came. *)
Theorem gate_admits_subject mw handler w tok w1 id authorize :
  parseToken (request w) (JKey mw) w = Ok ((Some tok, None), w1) →
  map_index (Claims tok) "id" = VString id →
  Authorizator mw = Some authorize →
  authorize id (request w) = true →
  ∃ w2, middlewareImpl mw handler w = handler w2
    ∧ writer w2 = writer w
    ∧ Header (request w2) = Header (request w)
    ∧ Payload (request w2) = Payload (request w)
    ∧ Env (request w2) !! "REMOTE_USER" = Some (VString id)
    ∧ ∀ k, k ≠ "REMOTE_USER" → Env (request w2) !! k = Env (request w) !! k.
Proof.
  intros Hp Hid Ha Hok.
  pose proof (gate_admits mw handler w tok w1 id authorize Hp Hid Ha Hok) as Hg.
  eexists. split; [exact Hg|].
  assert (writer w1 = writer w ∧ request w1 = request w) as [Hw Hq].
  { destruct (parseToken_frame (request w) (JKey mw) w) as [r [E|E]];
      rewrite E in Hp; by injection Hp as _ <-. }
  cbn. rewrite Hw, Hq. repeat split; [apply lookup_insert_eq|].
  intros k Hk. by apply lookup_insert_ne.
Qed.

(** When the authorizator refuses the subject, the gate answers with the
    Unauthorized response; the wrapped handler is not run and the request
    is left as it came ([REMOTE_USER] is not set). *)
Theorem gate_refuses_subject mw handler w tok w1 id authorize :
  parseToken (request w) (JKey mw) w = Ok ((Some tok, None), w1) →
  map_index (Claims tok) "id" = VString id →
  Authorizator mw = Some authorize →
  authorize id (request w) = false →
  rejects mw w (middlewareImpl mw handler w).
Proof.
  intros Hp Hid Ha Hno. rewrite (middlewareImpl_parsed _ _ _ _ _ Hp).
  unfold bind at 1, lift at 1. rewrite Hid. cbn [assert_string].
  unfold bind at 1, lift at 1. rewrite Ha. cbn [func]. rewrite Hno. cbn [negb].
  destruct (parseToken_frame (request w) (JKey mw) w) as [r [E|E]];
    rewrite E in Hp; injection Hp as _ <-.
  - apply unauthorized_rejects.
  - apply rejects_tick, unauthorized_rejects.
Qed.

(** A login whose payload cannot be decoded, or whose credentials the
    authenticator refuses, is answered with the Unauthorized response, the
    same in both cases and whatever the credentials; the clock is not read
    and the library is not called (an unknown algorithm goes unnoticed). *)
Theorem login_refuses mw w :
  (DecodeJsonPayload (request w) = None
   ∨ ∃ u p authenticate,
       DecodeJsonPayload (request w) = Some (mkLogin u p)
       ∧ Authenticator mw = Some authenticate
       ∧ authenticate u p = false) →
  LoginHandler mw w
  = Ok (tt, mkWorld (clock w) (reads w) (Unauthorized (Realm mw) (writer w)) (request w)).
Proof.
  intros [Hd|(u & p & f & Hd & Ha & Hno)].
  - by rewrite LoginHandler_undecoded, unauthorized_run.
  - by rewrite (LoginHandler_run _ _ _ _ Hd), Ha, Hno, unauthorized_run.
Qed.

(** When the library returns an error from signing the token that
    [LoginHandler] has built, a login with accepted credentials is answered
    with the Unauthorized response, like a refused one. *)
Theorem login_signing_error mw w u p authenticate m :
  DecodeJsonPayload (request w) = Some (mkLogin u p) →
  Authenticator mw = Some authenticate →
  authenticate u p = true →
  jwt_GetSigningMethod (SigningAlgorithm mw) = Some m →
  snd (jwt_SignedString (unsigned m (login_claims mw w u)) (JKey mw)) ≠ None →
  rejects mw w (LoginHandler mw w).
Proof.
  intros Hd Ha Hok Hm Hsig.
  rewrite (LoginHandler_run _ _ _ _ Hd), Ha, Hok, Hm. cbv zeta.
  fold (login_claims mw w u).
  destruct (jwt_SignedString _ _) as [s [e|]] eqn:Es.
  - eexists. by rewrite unauthorized_run.
  - by destruct Hsig.
Qed.


(** A run of [LoginHandler] that returns a token, read backwards. *)
Lemma LoginHandler_issues_inv mw w u p s :
  DecodeJsonPayload (request w) = Some (mkLogin u p) →
  issues s w (LoginHandler mw w) →
  ∃ authenticate m,
    Authenticator mw = Some authenticate
    ∧ authenticate u p = true
    ∧ jwt_GetSigningMethod (SigningAlgorithm mw) = Some m
    ∧ jwt_SignedString
        (unsigned m
           (claim_set (VString u) (Unix (Add (clock w (reads w)) (Timeout mw)))
              (if bool_decide (MaxRefresh mw ≠ 0)
               then Some (Unix (clock w (S (reads w)))) else None)))
        (JKey mw) = (s, None).
Proof.
  intros Hd Hs. rewrite (LoginHandler_run _ _ _ _ Hd) in Hs.
  destruct (Authenticator mw) as [f|]; [|by destruct Hs].
  destruct (f u p) eqn:Hok.
  2:{ exfalso. eapply rejects_not_issues; [|done]. apply unauthorized_rejects. }
  destruct (jwt_GetSigningMethod _) as [m|]; [|by destruct Hs].
  cbv zeta in Hs. destruct (jwt_SignedString _ _) as [s' [e|]] eqn:Es.
  { exfalso. eapply rejects_not_issues; [|done].
    eexists. by rewrite unauthorized_run. }
  assert (s' = s) as ->.
  { rewrite WriteJson_run in Hs. destruct Hs as [n' [= _ Hb]].
    apply app_inv_head in Hb. by injection Hb. }
  by exists f, m.
Qed.

(** With refresh switched off ([MaxRefresh] zero) the tokens of
    [LoginHandler] carry no [orig_iat], and [RefreshHandler] answers such a
    token with a panic, not with the Unauthorized response. *)
Theorem refresh_disabled_panics mw w0 u p s w tok err :
  decodes_faithfully _ →
  DecodeJsonPayload (request w0) = Some (mkLogin u p) →
  MaxRefresh mw = 0 →
  issues s w0 (LoginHandler mw w0) →
  Header_Get (request w) "Authorization" = "Bearer " +:+ s →
  jwt_Parse (clock w (reads w)) s (the_key (JKey mw)) = (Some tok, err) →
  RefreshHandler mw w = Panic InterfaceConversion.
Proof.
  intros Hlib Hd Hr Hs Hh Hp.
  destruct (LoginHandler_issues_inv _ _ _ _ _ Hd Hs) as (f & m & _ & _ & _ & Es).
  rewrite bool_decide_eq_false_2 in Es by (intros Hn; by apply Hn).
  pose proof (Hlib _ _ _ _ _ _ _ Es Hp "orig_iat") as Hc.
  cbn [unsigned Claims] in Hc. rewrite claim_set_orig_iat in Hc.
  assert (parseToken (request w) (JKey mw) w = Ok ((Some tok, err), tick w)) as E.
  { rewrite (parseToken_bearer _ _ _ Hh). unfold bind, time_Now, ret.
    by rewrite Hp. }
  eapply RefreshHandler_mistyped; [done|].
  intros n. unfold map_index. by destruct (Claims tok !! "orig_iat").
Qed.

(** Issue, then verify.  With a codec that decodes faithfully and verifies
    what it signed, a token that [LoginHandler] issued for a user passes the
    gate for as long as the clock is before its expiry second: the wrapped
    handler runs with that user under [REMOTE_USER], provided the
    authorizator accepts the user. *)
Theorem login_token_passes_gate mw w0 u p s w authorize handler :
  decodes_faithfully _ →
  verifies_own_tokens _ →
  DecodeJsonPayload (request w0) = Some (mkLogin u p) →
  issues s w0 (LoginHandler mw w0) →
  Header_Get (request w) "Authorization" = "Bearer " +:+ s →
  (Unix (clock w (reads w)) < Unix (Add (clock w0 (reads w0)) (Timeout mw)))%Z →
  Authorizator mw = Some authorize →
  authorize u (request w) = true →
  middlewareImpl mw handler w = handler (admitted u (tick w)).
Proof.
  intros Hlib Hver Hd Hs Hh Hfresh Ha Hok.
  destruct (LoginHandler_issues_inv _ _ _ _ _ Hd Hs) as (f & m & _ & _ & _ & Es).
  destruct (Hver _ _ _ (clock w (reads w)) Es) as [t Hp].
  { intros e. cbn [unsigned Claims]. unfold map_index.
    rewrite claim_set_exp. cbn. intros [= <-]. by rewrite <- Zlt_Qlt. }
  pose proof (Hlib _ _ _ _ _ _ _ Es Hp "id") as Hid.
  cbn [unsigned Claims] in Hid. rewrite claim_set_id in Hid.
  assert (map_index (Claims t) "id" = VString u) as Hsub.
  { unfold map_index. destruct (Claims t !! "id") as [v|]; [|done].
    injection Hid as Hid. cbn. by apply jsonify_string. }
  assert (parseToken (request w) (JKey mw) w = Ok ((Some t, None), tick w)) as E.
  { rewrite (parseToken_bearer _ _ _ Hh). unfold bind, time_Now, ret.
    by rewrite Hp. }
  by rewrite (gate_admits mw handler w t (tick w) u authorize E Hsub Ha Hok).
Qed.

(** ... and once its expiry second has passed it is refused, with a library
    that reports expiry as jwt-go does (when the present second is past the
    one [exp] names): the gate answers with the Unauthorized response and
    the wrapped handler is not run. *)
Theorem login_token_expires mw w0 u p s w tok err handler :
  decodes_faithfully _ →
  enforces_expiry _ →
  DecodeJsonPayload (request w0) = Some (mkLogin u p) →
  issues s w0 (LoginHandler mw w0) →
  Header_Get (request w) "Authorization" = "Bearer " +:+ s →
  jwt_Parse (clock w (reads w)) s (the_key (JKey mw)) = (Some tok, err) →
  (Unix (Add (clock w0 (reads w0)) (Timeout mw)) < Unix (clock w (reads w)))%Z →
  rejects mw w (middlewareImpl mw handler w).
Proof.
  intros Hlib Hexp Hd Hs Hh Hp Hlate.
  destruct (LoginHandler_issues_inv _ _ _ _ _ Hd Hs) as (f & m & _ & _ & _ & Es).
  pose proof (Hlib _ _ _ _ _ _ _ Es Hp "exp") as Hk.
  cbn [unsigned Claims] in Hk. rewrite claim_set_exp in Hk.
  assert (expiresAt tok
          = Some (inject_Z (Unix (Add (clock w0 (reads w0)) (Timeout mw))))) as He.
  { unfold expiresAt, map_index. destruct (Claims tok !! "exp") as [v|]; [|done].
    injection Hk as Hk. cbn. by rewrite <- (numeric_jsonify v), Hk. }
  assert (err ≠ None) as Herr.
  { eapply Hexp; [exact Hp|exact He|]. by rewrite to_int64_inject. }
  destruct err as [e|]; [|done].
  eapply gate_rejects_error. rewrite (parseToken_bearer _ _ _ Hh).
  unfold bind, time_Now, ret. by rewrite Hp.
Qed.

(** With a library that decodes every number as a [float64], as
    [encoding/json] does, no token it returns holds an [int64], and then
    every run of [RefreshHandler] ends in a panic, whatever the request:
    at the dereference when there is no token, at the type assertion when
    there is one. *)
Theorem refresh_panics_with_json_numbers mw w :
  (∀ now s keyFunc tok err n,
     jwt_Parse now s keyFunc = (Some tok, err) →
     map_index (Claims tok) "orig_iat" ≠ VInt64 n) →
  RefreshHandler mw w = Panic NilDereference
  ∨ RefreshHandler mw w = Panic InterfaceConversion.
Proof.
  intros Hjson.
  destruct (bearer_form (Header_Get (request w) "Authorization")) as [[t Ht]|Hno].
  2:{ left. destruct (parseToken_other (request w) (JKey mw) w Hno) as [e He].
      by eapply RefreshHandler_nil. }
  assert (parseToken (request w) (JKey mw) w
          = Ok (jwt_Parse (clock w (reads w)) t (the_key (JKey mw)), tick w)) as E
    by by rewrite (parseToken_bearer _ _ _ Ht).
  destruct (jwt_Parse _ t _) as [[tok|] err] eqn:Hp.
  - right. eapply RefreshHandler_mistyped; [exact E|].
    intros n. by eapply Hjson.
  - left. by eapply RefreshHandler_nil.
Qed.

End Further.

(** ** The reference codec verifies what it signed *)

Module CodecContracts.
Import Codec.

Lemma Parse_verifies_own (keep_int64 : bool) (t : Token) key s now :
  SignedString t key = (s, None) →
  (∀ e, numeric (map_index (Claims t) "exp") = Some e →
        (inject_Z (Unix now) < e)%Q) →
  ∃ t', Parse keep_int64 now s (the_key key) = (Some t', None).
Proof.
  intros Hs Hfresh.
  destruct (CodecFacts.Parse_accepts keep_int64 t key s now Hs) as (t' & Hp & _).
  - unfold expired.
    assert (numeric (map_index (if keep_int64 then Claims t
                                else jsonify <$> Claims t) "exp")
            = numeric (map_index (Claims t) "exp")) as ->
      by (destruct keep_int64; [done|apply numeric_index_jsonify]).
    destruct (numeric _) as [e|]; [|done].
    specialize (Hfresh e eq_refl). apply to_int64_lower in Hfresh.
    apply Z.ltb_ge. lia.
  - by exists t'.
Qed.

Lemma Json_verifies_own_tokens : verifies_own_tokens Json.
Proof. intros ? ? ? ?. apply (Parse_verifies_own false). Qed.

End CodecContracts.

(** ** The further properties on sample runs *)

Module MoreRuns.
Import Samples.

Lemma MiddlewareFunc_completes_witness :
  @MiddlewareFunc Codec.Json bare mark
  = Ok (completed, @middlewareImpl Codec.Json completed mark)
  ∧ SigningAlgorithm completed = "HS256"
  ∧ Timeout completed = Hour
  ∧ MaxRefresh completed = MaxRefresh bare
  ∧ ∃ f, Authorizator completed = Some f ∧ ∀ id r, f id r = true.
Proof.
  split; [reflexivity|].
  destruct (@MiddlewareFunc_completes Codec.Json bare mark completed _ eq_refl)
    as (_ & _ & _ & _ & Hw & _ & _ & Ha & Ht & Hz & _).
  repeat split; done.
Defined.

Lemma MiddlewareFunc_idempotent_witness :
  @MiddlewareFunc Codec.Json completed mark
  = Ok (completed, @middlewareImpl Codec.Json completed mark).
Proof.
  exact (@MiddlewareFunc_idempotent Codec.Json bare mark completed _ mark eq_refl).
Defined.

Lemma default_authorizator_admits_witness :
  @middlewareImpl Codec.Json completed mark
    (world (at_second 200) (bearer alice_384) "")
  = mark (admitted "alice" (tick (world (at_second 200) (bearer alice_384) ""))).
Proof.
  eapply (@default_authorizator_admits Codec.Json bare mark completed).
  - reflexivity.
  - reflexivity.
  - vm_compute. reflexivity.
  - vm_compute. reflexivity.
Defined.

Lemma parseToken_hands_remainder_witness :
  @parseToken Codec.Json
    (request (world (at_second 200) (<["Authorization" := "Bearer a b"]> ∅) ""))
    secret (world (at_second 200) (<["Authorization" := "Bearer a b"]> ∅) "")
  = Ok (Codec.Parse false (at_second 200 0%nat) "a b" (the_key secret),
        tick (world (at_second 200) (<["Authorization" := "Bearer a b"]> ∅) "")).
Proof.
  apply (@parseToken_hands_remainder Codec.Json). vm_compute. reflexivity.
Defined.

Lemma gate_admits_subject_witness :
  ∃ w2,
    @middlewareImpl Codec.Json (config "HS256" 0) mark
      (world (at_second 200) (bearer alice_384) "") = mark w2
    ∧ writer w2 = blank
    ∧ Header (request w2) = bearer alice_384
    ∧ Payload (request w2) = ""
    ∧ Env (request w2) !! "REMOTE_USER" = Some (VString "alice")
    ∧ ∀ k, k ≠ "REMOTE_USER" → Env (request w2) !! k = (∅ : gmap string value) !! k.
Proof.
  eapply (@gate_admits_subject Codec.Json (config "HS256" 0) mark
            (world (at_second 200) (bearer alice_384) "")).
  - vm_compute. reflexivity.
  - vm_compute. reflexivity.
  - reflexivity.
  - reflexivity.
Defined.

Lemma gate_refuses_subject_witness :
  rejects guarded (world (at_second 200) (bearer alice_384) "")
    (@middlewareImpl Codec.Json guarded mark
       (world (at_second 200) (bearer alice_384) "")).
Proof.
  eapply (@gate_refuses_subject Codec.Json guarded mark).
  - vm_compute. reflexivity.
  - vm_compute. reflexivity.
  - reflexivity.
  - vm_compute. reflexivity.
Defined.

Lemma login_refuses_witness :
  @LoginHandler Codec.Json Codec.Plain (config "HS256" Hour)
    (world (at_second 100) ∅ "alice:wrong")
  = Ok (tt, mkWorld (at_second 100) 0 (Unauthorized "api" blank)
              (mkRequest ∅ "alice:wrong" ∅)).
Proof.
  apply (@login_refuses Codec.Json Codec.Plain (config "HS256" Hour)
           (world (at_second 100) ∅ "alice:wrong")).
  right. exists "alice", "wrong", users. repeat split; vm_compute; reflexivity.
Defined.

Lemma login_signing_error_witness :
  rejects (config "RS256" 0) (world (at_second 100) ∅ "alice:correct")
    (@LoginHandler WithRS256 Codec.Plain (config "RS256" 0)
       (world (at_second 100) ∅ "alice:correct")).
Proof.
  eapply (@login_signing_error WithRS256 Codec.Plain (config "RS256" 0)
            (world (at_second 100) ∅ "alice:correct") "alice" "correct" users).
  - vm_compute. reflexivity.
  - reflexivity.
  - vm_compute. reflexivity.
  - vm_compute. reflexivity.
  - vm_compute. discriminate.
Defined.


Lemma refresh_disabled_panics_witness :
  @RefreshHandler Codec.Json (config "HS256" 0)
    (world (at_second 150) (bearer alice_plain) "")
  = Panic InterfaceConversion.
Proof.
  eapply (@refresh_disabled_panics Codec.Json Codec.Plain (config "HS256" 0)
            (world (at_second 100) ∅ "alice:correct") "alice" "correct" alice_plain).
  - apply CodecFacts.Json_decodes_faithfully.
  - vm_compute. reflexivity.
  - reflexivity.
  - exists 1%nat. vm_compute. reflexivity.
  - vm_compute. reflexivity.
  - vm_compute. reflexivity.
Defined.

Lemma login_token_passes_gate_witness :
  @middlewareImpl Codec.Json (config "HS256" 0) mark
    (world (at_second 3699) (bearer alice_plain) "")
  = mark (admitted "alice" (tick (world (at_second 3699) (bearer alice_plain) ""))).
Proof.
  eapply (@login_token_passes_gate Codec.Json Codec.Plain (config "HS256" 0)
            (world (at_second 100) ∅ "alice:correct") "alice" "correct" alice_plain).
  - apply CodecFacts.Json_decodes_faithfully.
  - apply CodecContracts.Json_verifies_own_tokens.
  - vm_compute. reflexivity.
  - exists 1%nat. vm_compute. reflexivity.
  - vm_compute. reflexivity.
  - vm_compute. reflexivity.
  - reflexivity.
  - reflexivity.
Defined.

Lemma login_token_expires_witness :
  rejects (config "HS256" 0) (world (at_second 7200) (bearer alice_plain) "")
    (@middlewareImpl Codec.Json (config "HS256" 0) mark
       (world (at_second 7200) (bearer alice_plain) "")).
Proof.
  eapply (@login_token_expires Codec.Json Codec.Plain (config "HS256" 0)
            (world (at_second 100) ∅ "alice:correct") "alice" "correct" alice_plain).
  - apply CodecFacts.Json_decodes_faithfully.
  - apply CodecFacts.Json_enforces_expiry.
  - vm_compute. reflexivity.
  - exists 1%nat. vm_compute. reflexivity.
  - vm_compute. reflexivity.
  - vm_compute. reflexivity.
  - vm_compute. reflexivity.
Defined.

Lemma refresh_panics_with_json_numbers_witness :
  @RefreshHandler Codec.Json (config "HS256" Hour)
    (world (at_second 100) (bearer alice_100) "") = Panic NilDereference
  ∨ @RefreshHandler Codec.Json (config "HS256" Hour)
      (world (at_second 100) (bearer alice_100) "") = Panic InterfaceConversion.
Proof.
  apply (@refresh_panics_with_json_numbers Codec.Json).
  intros now s kf tok err n. apply CodecFacts.Json_no_int64.
Defined.

End MoreRuns.
